(** * BPTracker backend: readings store, HTTP handlers and the SQLite to
      PostgreSQL migration script.

    The development embeds
      - [src/schemas.py]   (request validation),
      - [src/models.py]    (the mapped class and its table),
      - [src/routers/readings.py] (the five handlers),
      - [scripts/migrate_sqlite_to_postgres.py] ([migrate_data]),
    over a small model of an ORM session on one PostgreSQL table whose
    primary key is fed by the sequence [blood_pressure_readings_id_seq].
    Handlers are written in a state-and-exception monad so that they read
    like the Python they come from.

    What is modelled of a request: the checks on query parameters and on
    the body, the handler, and the session that is opened for it.  The
    embedding ends at the value the handler returns or the exception it
    raises; turning that value into the JSON of the response model is
    left to the framework.  Integers are unbounded in Python; the store
    refuses what does not fit its types: the [Integer] columns and the id
    sequence hold 32 bits, [OFFSET] and [LIMIT] take 64. *)

From stdpp Require Import base option list sorting gmap strings.
From Stdlib Require Import ZArith.

Open Scope Z_scope.

(** ** Python values, exceptions, and the monad of handlers *)

(** A [datetime] is a point on a totally ordered time line; only the order
    matters to the code ([ORDER BY timestamp DESC]). *)
Abbreviation datetime := Z (only parsing).

(** The Python values that travel through keyword arguments and SQLite
    rows. *)
Inductive pyval :=
| PyNone
| PyInt (n : Z)
| PyStr (s : string)
| PyDatetime (t : datetime).

Inductive Exception :=
| HTTPException (status_code : Z) (detail : string)
| RequestValidationError (fields : list string)
| TypeError (msg : string)
| KeyError (key : string)
| ValueError (msg : string)
| IntegrityError (msg : string)
| DataError (msg : string)
| OperationalError (msg : string)
| InvalidRequestError (msg : string)
| ArgumentError (msg : string).

(** The HTTP status the framework answers with when a handler raises. *)
Definition status_of (e : Exception) : Z :=
  match e with
  | HTTPException code _ => code
  | RequestValidationError _ => 422
  | _ => 500
  end.

Inductive Outcome (A : Type) :=
| Returned (a : A)
| Raised (e : Exception).
Arguments Returned {A} a.
Arguments Raised {A} e.

(** A computation over a state [St] that returns or raises; on a raise
    the state reached so far is kept (Python does not undo effects). *)
Definition M (St A : Type) : Type := St → Outcome A * St.

Definition ret {St A} (a : A) : M St A := λ s, (Returned a, s).
Definition raise {St A} (e : Exception) : M St A := λ s, (Raised e, s).
Definition bind {St A B} (m : M St A) (k : A → M St B) : M St B :=
  λ s, match m s with
       | (Returned a, s') => k a s'
       | (Raised e, s') => (Raised e, s')
       end.
Definition get_state {St} : M St St := λ s, (Returned s, s).
Definition modify {St} (f : St → St) : M St unit := λ s, (Returned tt, f s).
Definition lift_outcome {St A} (o : Outcome A) : M St A := λ s, (o, s).

(** [try: body except Exception as e: handler e] *)
Definition try_except {St A} (body : M St A) (handler : Exception → M St A)
  : M St A :=
  λ s, match body s with
       | (Returned a, s') => (Returned a, s')
       | (Raised e, s') => handler e s'
       end.

(** Run a computation on a component of a larger state. *)
Definition zoom {St T A} (proj : T → St) (inj : St → T → T) (m : M St A)
  : M T A :=
  λ t, match m (proj t) with (o, s') => (o, inj s' t) end.

Declare Scope py_scope.
Delimit Scope py_scope with py.
Notation "x <- m ;; k" := (bind m (λ x, k))
  (at level 100, m at next level, right associativity) : py_scope.
Notation "m ;; k" := (bind m (λ _, k))
  (at level 100, right associativity) : py_scope.
Open Scope py_scope.

(** [for x in xs: body x] *)
Fixpoint for_each {St A} (xs : list A) (body : A → M St unit) : M St unit :=
  match xs with
  | [] => ret tt
  | x :: rest => body x ;; for_each rest body
  end.

(** ** src/models.py *)

Module models.

(** A loaded instance of the mapped class: one row of
    [blood_pressure_readings]. *)
Record BloodPressureReading := {
  id : Z;
  systolic : Z;
  diastolic : Z;
  heart_rate : Z;
  timestamp : datetime
}.

Definition __tablename__ : string := "blood_pressure_readings".

(** The column attributes the class body declares. *)
Definition columns : list string :=
  ["id"; "systolic"; "diastolic"; "heart_rate"; "timestamp"].

(** [hasattr(BloodPressureReading, k)] for the keywords the program
    passes: true for the declared names only. *)
Definition hasattr (k : string) : bool :=
  bool_decide (k ∈ "__tablename__" :: columns).

(** The declarative constructor of [BloodPressureReading], called with
    keyword arguments: every keyword must name an attribute of the class,
    else [TypeError]; the accepted ones are set on the new (transient)
    instance. *)
Fixpoint init_from (kwargs : list (string * pyval))
    (self : gmap string pyval) : Outcome (gmap string pyval) :=
  match kwargs with
  | [] => Returned self
  | (k, v) :: rest =>
      if hasattr k then init_from rest (<[k := v]> self)
      else Raised (TypeError
             (k +:+ " is an invalid keyword argument for BloodPressureReading"))
  end.

Definition init (kwargs : list (string * pyval))
  : Outcome (gmap string pyval) :=
  init_from kwargs ∅.

End models.

(** ** src/schemas.py *)

Module schemas.

(** [BloodPressureReadingCreate]: the three fields of
    [BloodPressureReadingBase] and the optional [timestamp]. *)
Record BloodPressureReadingCreate := {
  systolic : Z;
  diastolic : Z;
  heart_rate : Z;
  timestamp : option datetime
}.

(** [Field(..., ge=lo, le=hi)] on an integer field. *)
Definition Field (lo hi v : Z) : bool :=
  bool_decide (lo ≤ v) && bool_decide (v ≤ hi).

(** The fields of a body that fail their constraint, in declaration
    order; the schema library reports all of them at once. *)
Definition errors (body : BloodPressureReadingCreate) : list string :=
  (if Field 40 300 (systolic body) then [] else ["systolic"]) ++
  (if Field 20 200 (diastolic body) then [] else ["diastolic"]) ++
  (if Field 20 250 (heart_rate body) then [] else ["heart_rate"]).

Definition validate (body : BloodPressureReadingCreate)
  : Outcome BloodPressureReadingCreate :=
  match errors body with
  | [] => Returned body
  | f :: fs => Raised (RequestValidationError (f :: fs))
  end.

(** [BloodPressureReadingList]: the response of the list endpoint. *)
Record BloodPressureReadingList := {
  readings : list models.BloodPressureReading
}.

End schemas.

(** [Query(default, ge=lo, le=hi)] on an optional integer parameter. *)
Definition Query (name : string) (default : Z) (lo : Z) (hi : option Z)
    (given : option Z) : Outcome Z :=
  match given with
  | None => Returned default
  | Some v =>
      if bool_decide (lo ≤ v) && from_option (λ h, bool_decide (v ≤ h)) true hi
      then Returned v
      else Raised (RequestValidationError [name])
  end.

(** ** The store: one table with a serial primary key, seen through an
       ORM session *)

Module store.

(** The non-key columns of a row. *)
Record Row := {
  systolic : Z;
  diastolic : Z;
  heart_rate : Z;
  timestamp : datetime
}.

(** The table is keyed by its primary key [id]; [id_seq] is the last
    value handed out by [blood_pressure_readings_id_seq] (0 before the
    first call), so the next automatic id is [id_seq + 1]. *)
Record Database := {
  table : gmap Z Row;
  id_seq : Z
}.

Definition empty_db : Database := {| table := ∅; id_seq := 0 |}.

Definition load (key : Z) (r : Row) : models.BloodPressureReading :=
  {| models.id := key;
     models.systolic := systolic r;
     models.diastolic := diastolic r;
     models.heart_rate := heart_rate r;
     models.timestamp := timestamp r |}.

Definition rows (t : gmap Z Row) : list models.BloodPressureReading :=
  (λ kr, load kr.1 kr.2) <$> map_to_list t.

(** What the session knows of an object handed to [add]. *)
Inductive ObjState :=
| Pending (attrs : gmap string pyval)
| Persistent (key : Z)
| Expunged.

(** [durable] is the committed table, [txn] the table as the open
    transaction sees it.  The sequence is not transactional.  [objects]
    are the instances given to [add], in order; [deleted] the keys
    marked by [delete].  [clock] is the current time. *)
Record Session := {
  durable : gmap Z Row;
  txn : gmap Z Row;
  sequence : Z;
  objects : list ObjState;
  deleted : list Z;
  clock : datetime
}.

Definition set_txn (f : gmap Z Row → gmap Z Row) (s : Session) : Session :=
  {| durable := durable s; txn := f (txn s); sequence := sequence s;
     objects := objects s; deleted := deleted s; clock := clock s |}.
Definition set_sequence (v : Z) (s : Session) : Session :=
  {| durable := durable s; txn := txn s; sequence := v;
     objects := objects s; deleted := deleted s; clock := clock s |}.
Definition set_objects (o : list ObjState) (s : Session) : Session :=
  {| durable := durable s; txn := txn s; sequence := sequence s;
     objects := o; deleted := deleted s; clock := clock s |}.
Definition set_deleted (d : list Z) (s : Session) : Session :=
  {| durable := durable s; txn := txn s; sequence := sequence s;
     objects := objects s; deleted := d; clock := clock s |}.
Definition set_durable (t : gmap Z Row) (s : Session) : Session :=
  {| durable := t; txn := txn s; sequence := sequence s;
     objects := objects s; deleted := deleted s; clock := clock s |}.

(** [datetime.now()] *)
Definition now : M Session datetime := λ s, (Returned (clock s), s).

(** The largest value of an [Integer] column and of the sequence that
    feeds the primary key, and the largest [bigint]. *)
Definition INT4_MAX : Z := 2147483647.
Definition INT8_MAX : Z := 9223372036854775807.

(** The value fits an [Integer] column. *)
Definition int4 (v : Z) : bool :=
  bool_decide (- INT4_MAX - 1 ≤ v) && bool_decide (v ≤ INT4_MAX).

(** The value is accepted as an [OFFSET] or a [LIMIT]. *)
Definition row_count (v : Z) : bool :=
  bool_decide (0 ≤ v) && bool_decide (v ≤ INT8_MAX).

(** [nextval('blood_pressure_readings_id_seq')]: past its maximum the
    sequence gives no value. *)
Definition nextval : M Session Z :=
  s <- get_state ;;
  if bool_decide (sequence s < INT4_MAX) then
    modify (set_sequence (sequence s + 1)) ;;
    ret (sequence s + 1)
  else raise (DataError "nextval: reached maximum value of sequence").

(** A value bound to an [Integer] column. *)
Definition int_value (name : string) (v : Z) : M Session Z :=
  if int4 v then ret v
  else raise (DataError ("integer out of range: " +:+ name)).

(** A [NOT NULL] integer column of a pending object. *)
Definition int_column (name : string) (attrs : gmap string pyval)
  : M Session Z :=
  match attrs !! name with
  | Some (PyInt v) => int_value name v
  | None | Some PyNone =>
      raise (IntegrityError ("null value in column " +:+ name))
  | Some _ => raise (DataError name)
  end.

(** [INSERT INTO blood_pressure_readings ... RETURNING id] for one
    pending object: an absent id is drawn from the sequence, an absent
    timestamp takes the column default [now()], and the primary key must
    be new. *)
Definition insert_row (attrs : gmap string pyval) : M Session Z :=
  key <- match attrs !! "id" with
         | Some (PyInt k) => int_value "id" k
         | None | Some PyNone => nextval
         | Some _ => raise (DataError "id")
         end ;;
  sys <- int_column "systolic" attrs ;;
  dia <- int_column "diastolic" attrs ;;
  hr <- int_column "heart_rate" attrs ;;
  ts <- match attrs !! "timestamp" with
        | Some (PyDatetime t) => ret t
        | None | Some PyNone => now
        | Some _ => raise (DataError "timestamp")
        end ;;
  s <- get_state ;;
  match txn s !! key with
  | Some _ =>
      raise (IntegrityError "duplicate key value violates unique constraint")
  | None =>
      modify (set_txn (insert key
        {| systolic := sys; diastolic := dia; heart_rate := hr;
           timestamp := ts |})) ;;
      ret key
  end.

Fixpoint flush_objects (objs : list ObjState) : M Session (list ObjState) :=
  match objs with
  | [] => ret []
  | Pending attrs :: rest =>
      key <- insert_row attrs ;;
      rest' <- flush_objects rest ;;
      ret (Persistent key :: rest')
  | o :: rest =>
      rest' <- flush_objects rest ;;
      ret (o :: rest')
  end.

(** After a rollback the objects that were never committed are no
    longer attached to the session. *)
Definition expunge (committed : gmap Z Row) (o : ObjState) : ObjState :=
  match o with
  | Persistent k =>
      match committed !! k with
      | Some _ => Persistent k
      | None => Expunged
      end
  | _ => Expunged
  end.

(** [db.rollback()] *)
Definition rollback : M Session unit :=
  modify (λ s,
    {| durable := durable s; txn := durable s; sequence := sequence s;
       objects := expunge (durable s) <$> objects s; deleted := [];
       clock := clock s |}).

(** The flush that opens every commit: inserts for the pending
    objects in the order they were added, then the deletes.  A failing
    statement aborts the transaction; the session rolls back and the
    error is raised again. *)
Definition flush : M Session unit :=
  try_except
    (s <- get_state ;;
     objs <- flush_objects (objects s) ;;
     modify (set_objects objs) ;;
     s <- get_state ;;
     modify (set_txn (λ t, foldr delete t (deleted s))) ;;
     modify (set_deleted []))
    (λ e, rollback ;; raise e).

(** [db.commit()] *)
Definition commit : M Session unit :=
  flush ;;
  s <- get_state ;;
  modify (set_durable (txn s)).

(** [db.add(obj)]; the result stands for the Python object, which the
    session updates in place when it is flushed. *)
Definition add (attrs : gmap string pyval) : M Session nat :=
  s <- get_state ;;
  modify (set_objects (objects s ++ [Pending attrs])) ;;
  ret (length (objects s)).

(** [db.refresh(obj)] *)
Definition refresh (obj : nat) : M Session models.BloodPressureReading :=
  s <- get_state ;;
  match objects s !! obj with
  | Some (Persistent key) =>
      match txn s !! key with
      | Some r => ret (load key r)
      | None => raise (InvalidRequestError "Could not refresh instance")
      end
  | _ =>
      raise (InvalidRequestError
               "Instance is not persistent within this Session")
  end.

(** [db.delete(obj)] on a loaded instance. *)
Definition delete_ (obj : models.BloodPressureReading) : M Session unit :=
  s <- get_state ;;
  modify (set_deleted (deleted s ++ [models.id obj])).

(** [db.query(BloodPressureReading)
       .filter(BloodPressureReading.id == key).first()] *)
Definition query_filter_id_first (key : Z)
  : M Session (option models.BloodPressureReading) :=
  s <- get_state ;;
  ret (load key <$> txn s !! key).

(** [timestamp.desc()]: [a] may come before [b].  The query leaves the
    order of two readings with the same timestamp to the store, which
    returns them as they were inserted, that is by id. *)
Definition timestamp_desc (a b : models.BloodPressureReading) : Prop :=
  models.timestamp b < models.timestamp a ∨
  (models.timestamp b = models.timestamp a ∧ models.id a ≤ models.id b).

#[export] Instance timestamp_desc_dec a b : Decision (timestamp_desc a b).
Proof. unfold timestamp_desc. apply _. Defined.

#[export] Instance timestamp_desc_total : Total timestamp_desc.
Proof. intros a b. unfold timestamp_desc. lia. Qed.

#[export] Instance timestamp_desc_trans : Transitive timestamp_desc.
Proof. intros a b c. unfold timestamp_desc. lia. Qed.

(** [db.query(BloodPressureReading).order_by(timestamp.desc())
       .offset(skip).limit(limit).all()]; the store refuses an [OFFSET]
    or a [LIMIT] that is negative or does not fit a [bigint]. *)
Definition query_order_by_offset_limit_all (skip limit : Z)
  : M Session (list models.BloodPressureReading) :=
  s <- get_state ;;
  if row_count skip && row_count limit then
    ret (take (Z.to_nat limit)
           (drop (Z.to_nat skip)
              (merge_sort timestamp_desc (rows (txn s)))))
  else raise (DataError "bigint out of range").

(** [db.query(BloodPressureReading).delete()]: one [DELETE] without a
    [WHERE], run at once inside the transaction; returns the number of
    rows matched. *)
Definition query_delete : M Session nat :=
  s <- get_state ;;
  modify (set_txn (λ _, ∅)) ;;
  ret (size (txn s)).

(** [SELECT MAX(id) FROM blood_pressure_readings] *)
Definition max_id (t : gmap Z Row) : option Z :=
  match (map_to_list t).*1 with
  | [] => None
  | k :: ks => Some (foldr Z.max k ks)
  end.

(** [db.execute("SELECT setval('blood_pressure_readings_id_seq',
    (SELECT MAX(id) FROM blood_pressure_readings))")], the statement
    given as a plain string.  [textual] tells whether the session takes a
    plain string as SQL: it did before SQLAlchemy 2.0 and raises
    [ArgumentError] since.  [setval] is strict, so on an empty table
    ([NULL]) nothing happens; a value outside the bounds of the sequence
    is an error. *)
Definition execute_setval_max_id (textual : bool) : M Session unit :=
  if textual then
    s <- get_state ;;
    match max_id (txn s) with
    | None => ret tt
    | Some m =>
        if bool_decide (1 ≤ m) && bool_decide (m ≤ INT4_MAX)
        then modify (set_sequence m)
        else raise (DataError "setval: value out of bounds for sequence")
    end
  else
    raise (ArgumentError
             "Textual SQL expression should be explicitly declared as text").

(** Modelled from the spec: [SessionLocal] of [src/database.py], which
    is not among the sources: a session opens on the committed state of
    the store with nothing pending. *)
Definition SessionLocal (clock : datetime) (db : Database) : Session :=
  {| durable := table db; txn := table db; sequence := id_seq db;
     objects := []; deleted := []; clock := clock |}.

(** [db.close()]: what is not committed is lost. *)
Definition close (s : Session) : Database :=
  {| table := durable s; id_seq := sequence s |}.

(** Modelled from the spec: [get_db] of [src/database.py], which is
    not among the sources: each request opens a scoped session, released
    on completion regardless of success or failure. *)
Definition get_db {A} (handler : M Session A) (clock : datetime)
    (db : Database) : Outcome A * Database :=
  match handler (SessionLocal clock db) with
  | (o, s) => (o, close s)
  end.

End store.

(** ** src/routers/readings.py *)

Module readings.
Import store.

(** [GET /readings/] *)
Definition get_readings (skip limit : Z)
  : M Session schemas.BloodPressureReadingList :=
  readings <- query_order_by_offset_limit_all skip limit ;;
  ret {| schemas.readings := readings |}.

(** [POST /readings/] *)
Definition create_reading (reading : schemas.BloodPressureReadingCreate)
  : M Session models.BloodPressureReading :=
  (* datetime instances are always true, so [x or datetime.now()] takes
     the clock exactly when [x] is [None] *)
  ts <- match schemas.timestamp reading with
        | Some t => ret t
        | None => now
        end ;;
  db_reading <- lift_outcome (models.init
    [("systolic", PyInt (schemas.systolic reading));
     ("diastolic", PyInt (schemas.diastolic reading));
     ("heart_rate", PyInt (schemas.heart_rate reading));
     ("timestamp", PyDatetime ts)]) ;;
  obj <- add db_reading ;;
  commit ;;
  refresh obj.

(** [GET /readings/{reading_id}] *)
Definition get_reading (reading_id : Z)
  : M Session models.BloodPressureReading :=
  reading <- query_filter_id_first reading_id ;;
  match reading with
  | None => raise (HTTPException 404 "Reading not found")
  | Some reading => ret reading
  end.

(** [DELETE /readings/{reading_id}] *)
Definition delete_reading (reading_id : Z) : M Session unit :=
  reading <- query_filter_id_first reading_id ;;
  match reading with
  | None => raise (HTTPException 404 "Reading not found")
  | Some reading =>
      delete_ reading ;;
      commit
  end.

(** [DELETE /readings/] *)
Definition delete_all_readings : M Session unit :=
  query_delete ;;
  commit.

(** *** The routes: parameter and body validation, then the handler in
        a request-scoped session *)

Inductive Request :=
| GET_readings (skip limit : option Z)
| POST_readings (body : schemas.BloodPressureReadingCreate)
| GET_reading (reading_id : Z)
| DELETE_reading (reading_id : Z)
| DELETE_readings.

Inductive Body :=
| ReadingList (l : schemas.BloodPressureReadingList)
| Reading (r : models.BloodPressureReading)
| NoContent.

Definition route (req : Request) : M Session Body :=
  match req with
  | GET_readings skip limit =>
      skip <- lift_outcome (Query "skip" 0 0 None skip) ;;
      limit <- lift_outcome (Query "limit" 100 1 (Some 100) limit) ;;
      l <- get_readings skip limit ;;
      ret (ReadingList l)
  | POST_readings body =>
      reading <- lift_outcome (schemas.validate body) ;;
      r <- create_reading reading ;;
      ret (Reading r)
  | GET_reading reading_id =>
      r <- get_reading reading_id ;;
      ret (Reading r)
  | DELETE_reading reading_id =>
      delete_reading reading_id ;;
      ret NoContent
  | DELETE_readings =>
      delete_all_readings ;;
      ret NoContent
  end.

(** One request against the store at time [clock]: the response and the
    store it leaves. *)
Definition serve (req : Request) (clock : datetime) (db : Database)
  : Outcome Body * Database :=
  get_db (route req) clock db.

End readings.

(** ** scripts/migrate_sqlite_to_postgres.py *)

Module migrate.
Import store.

Definition SQLITE_DB_PATH : string := "bptracker.db".

(** What the script prints. *)
Inductive Line :=
| SqliteNotFound
| Found (n : nat)
| Migrated (n : nat)
| ErrorDuringMigration (e : Exception).

(** The world the script runs in: the SQLite files of the working
    directory (a file is its tables, by name; a row, once turned into a
    [dict], maps column names to values), the PostgreSQL store, the
    terminal, the time. *)
Record World := {
  files : gmap string (gmap string (list (gmap string pyval)));
  postgres : Database;
  stdout : list Line;
  clock : datetime
}.

(** The state of the running script: the PostgreSQL session [db] and
    the lines printed so far. *)
Record State := {
  db : Session;
  out : list Line
}.

Definition on_db {A} (m : M Session A) : M State A :=
  zoom db (λ s st, {| db := s; out := out st |}) m.

Definition print (l : Line) : M State unit :=
  modify (λ st, {| db := db st; out := out st ++ [l] |}).

(** [cursor.execute("SELECT * FROM blood_pressure_readings")] followed
    by [fetchall()] *)
Definition select_all (sqlite : gmap string (list (gmap string pyval)))
  : M State (list (gmap string pyval)) :=
  match sqlite !! models.__tablename__ with
  | Some rows => ret rows
  | None => raise (OperationalError "no such table: blood_pressure_readings")
  end.

(** [d[k]] on a [dict] *)
Definition getitem (d : gmap string pyval) (k : string) : M State pyval :=
  match d !! k with
  | Some v => ret v
  | None => raise (KeyError k)
  end.

Section with_fromisoformat.

(** The parser behind [datetime.fromisoformat] on strings; [None]
    when the string is not in ISO format. *)
Variable parse_iso : string → option datetime.

(** Whether the installed SQLAlchemy takes a plain string as SQL. *)
Variable textual : bool.

Definition fromisoformat (v : pyval) : M State datetime :=
  match v with
  | PyStr s =>
      match parse_iso s with
      | Some t => ret t
      | None => raise (ValueError ("Invalid isoformat string: " +:+ s))
      end
  | _ => raise (TypeError "fromisoformat: argument must be str")
  end.

(** The body of the [for] loop: the keyword arguments are evaluated
    left to right, the instance is built, then added to the session. *)
Definition migrate_reading (reading : gmap string pyval) : M State unit :=
  let reading_dict := reading in
  id <- getitem reading_dict "id" ;;
  systolic <- getitem reading_dict "systolic" ;;
  diastolic <- getitem reading_dict "diastolic" ;;
  heart_rate <- getitem reading_dict "heart_rate" ;;
  ts <- getitem reading_dict "timestamp" ;;
  timestamp <- fromisoformat ts ;;
  note <- getitem reading_dict "note" ;;
  new_reading <- lift_outcome (models.init
    [("id", id);
     ("systolic", systolic);
     ("diastolic", diastolic);
     ("heart_rate", heart_rate);
     ("timestamp", PyDatetime timestamp);
     ("note", note)]) ;;
  on_db (add new_reading) ;;
  ret tt.

(** The [try] block. *)
Definition migrate_try (sqlite : gmap string (list (gmap string pyval)))
  : M State unit :=
  readings <- select_all sqlite ;;
  print (Found (length readings)) ;;
  for_each readings migrate_reading ;;
  on_db commit ;;
  on_db (execute_setval_max_id textual) ;;
  on_db commit ;;
  print (Migrated (length readings)).

(** The [except Exception as e] block. *)
Definition migrate_except (e : Exception) : M State unit :=
  print (ErrorDuringMigration e) ;;
  on_db rollback.

(** [migrate_data()]: nothing is done without the SQLite file;
    [Base.metadata.create_all] touches no row and is left out. *)
Definition migrate_data (w : World) : World :=
  match files w !! SQLITE_DB_PATH with
  | None =>
      {| files := files w; postgres := postgres w;
         stdout := stdout w ++ [SqliteNotFound]; clock := clock w |}
  | Some sqlite =>
      let st0 := {| db := SessionLocal (clock w) (postgres w);
                    out := stdout w |} in
      match try_except (migrate_try sqlite) migrate_except st0 with
      | (_, st) =>
          (* finally: db.close(); sqlite_conn.close() *)
          {| files := files w; postgres := close (db st);
             stdout := out st; clock := clock w |}
      end
  end.

End with_fromisoformat.

End migrate.

(** ** Notions used to state the properties *)

(** The documented domains of the three numeric fields. *)
Definition in_bounds (body : schemas.BloodPressureReadingCreate) : Prop :=
  40 ≤ schemas.systolic body ≤ 300 ∧
  20 ≤ schemas.diastolic body ≤ 200 ∧
  20 ≤ schemas.heart_rate body ≤ 250.

(** The row that a create request is expected to store at time [clock]. *)
Definition row_of (clock : datetime)
    (body : schemas.BloodPressureReadingCreate) : store.Row :=
  {| store.systolic := schemas.systolic body;
     store.diastolic := schemas.diastolic body;
     store.heart_rate := schemas.heart_rate body;
     store.timestamp := default clock (schemas.timestamp body) |}.

(** The sequence has a next value and no row has it as id. *)
Definition next_id_free (db : store.Database) : Prop :=
  store.id_seq db < store.INT4_MAX ∧
  store.table db !! (store.id_seq db + 1) = None.

(** The sequence is at or past every id in the table; this holds of the
    empty store and every request keeps it. *)
Definition sequence_ahead (db : store.Database) : Prop :=
  ∀ k, is_Some (store.table db !! k) → k ≤ store.id_seq db.


(** The store a request leaves behind. *)
Definition store_after (req : readings.Request) (clock : datetime)
    (db : store.Database) : store.Database :=
  (readings.serve req clock db).2.

(** The keyword arguments [create_reading] passes to the constructor, as
    the attributes of the new instance. *)
Definition create_attrs (sys dia hr : Z) (ts : datetime) : gmap string pyval :=
  <["timestamp" := PyDatetime ts]>
    (<["heart_rate" := PyInt hr]>
      (<["diastolic" := PyInt dia]>
        (<["systolic" := PyInt sys]> ∅))).

(** Query parameters that pass the checks of the list endpoint; an
    omitted parameter always does. *)
Definition valid_window (skip limit : option Z) : Prop :=
  from_option (λ v, 0 ≤ v) True skip ∧
  from_option (λ v, 1 ≤ v ≤ 100) True limit.

(** The row a loaded instance was read from. *)
Definition row_part (r : models.BloodPressureReading) : store.Row :=
  {| store.systolic := models.systolic r;
     store.diastolic := models.diastolic r;
     store.heart_rate := models.heart_rate r;
     store.timestamp := models.timestamp r |}.

(** The script reported a failure as its last line. *)
Definition reported_error (w : migrate.World) : Prop :=
  ∃ e, last (migrate.stdout w) = Some (migrate.ErrorDuringMigration e).

(** The world after a run of the script that printed [lines] and left the
    target store as [pg]. *)
Definition after_run (w : migrate.World) (pg : store.Database)
    (lines : list migrate.Line) : migrate.World :=
  {| migrate.files := migrate.files w;
     migrate.postgres := pg;
     migrate.stdout := migrate.stdout w ++ lines;
     migrate.clock := migrate.clock w |}.

(** A SQLite row of the old application, which had a [note] column. *)
Definition sqlite_row (id sys dia hr : Z) (ts : string) (note : pyval)
  : gmap string pyval :=
  list_to_map
    [("id", PyInt id); ("systolic", PyInt sys); ("diastolic", PyInt dia);
     ("heart_rate", PyInt hr); ("timestamp", PyStr ts); ("note", note)].

(** A source with rows of id 1 to 5. *)
Definition five_rows : list (gmap string pyval) :=
  [sqlite_row 1 120 80 60 "2024-01-01 08:00:00" PyNone;
   sqlite_row 2 125 82 64 "2024-01-02 08:00:00" (PyStr "after coffee");
   sqlite_row 3 118 79 58 "2024-01-03 08:00:00" PyNone;
   sqlite_row 4 130 85 70 "2024-01-04 08:00:00" PyNone;
   sqlite_row 5 122 81 62 "2024-01-05 08:00:00" PyNone].

(** The source file holding just these rows, an empty target. *)
Definition five_rows_world (clock : datetime) : migrate.World :=
  {| migrate.files :=
       {[ migrate.SQLITE_DB_PATH := {[ models.__tablename__ := five_rows ]} ]};
     migrate.postgres := store.empty_db;
     migrate.stdout := [];
     migrate.clock := clock |}.

(** A request body used in examples. *)
Definition sample_body : schemas.BloodPressureReadingCreate :=
  {| schemas.systolic := 120; schemas.diastolic := 80;
     schemas.heart_rate := 60; schemas.timestamp := None |}.
(** A history of requests, each with the time it is served at, run one
    after the other from [db]: the store they leave. *)
Definition run_history (history : list (readings.Request * datetime))
    (db : store.Database) : store.Database :=
  foldl (λ db rc, store_after rc.1 rc.2 db) db history.

(** Every stored row is within the documented domains. *)
Definition rows_in_bounds (db : store.Database) : Prop :=
  ∀ k row, store.table db !! k = Some row →
    40 ≤ store.systolic row ≤ 300 ∧
    20 ≤ store.diastolic row ≤ 200 ∧
    20 ≤ store.heart_rate row ≤ 250.

(** A source file whose table has no rows, beside the target [pg]. *)
Definition empty_source_world (clock : datetime) (pg : store.Database)
  : migrate.World :=
  {| migrate.files :=
       {[ migrate.SQLITE_DB_PATH := {[ models.__tablename__ := [] ]} ]};
     migrate.postgres := pg;
     migrate.stdout := [];
     migrate.clock := clock |}.

(** A target whose sequence was never advanced although a row with id 7
    was put there by hand. *)
Definition stale_sequence_db : store.Database :=
  {| store.table := {[ 7 := row_of 500 sample_body ]}; store.id_seq := 0 |}.

(** The skip of a list request is one the store accepts as an [OFFSET];
    an omitted skip always is. *)
Definition offset_in_range (skip : option Z) : Prop :=
  from_option (λ v, v ≤ store.INT8_MAX) True skip.

(** * Properties *)

Import store readings.

(** ** Running the handlers *)

Lemma init_create sys dia hr ts :
  models.init [("systolic", PyInt sys); ("diastolic", PyInt dia);
               ("heart_rate", PyInt hr); ("timestamp", PyDatetime ts)]
  = Returned (create_attrs sys dia hr ts).
Proof. reflexivity. Qed.

Lemma in_bounds_int4 body :
  in_bounds body →
  int4 (schemas.systolic body) = true ∧
  int4 (schemas.diastolic body) = true ∧
  int4 (schemas.heart_rate body) = true.
Proof.
  unfold in_bounds, int4, INT4_MAX. intros (? & ? & ?).
  by rewrite !bool_decide_eq_true_2 by lia.
Qed.

Lemma insert_row_create sys dia hr ts (s : Session) :
  int4 sys = true → int4 dia = true → int4 hr = true →
  insert_row (create_attrs sys dia hr ts) s =
  if bool_decide (sequence s < INT4_MAX) then
    match txn s !! (sequence s + 1) with
    | None =>
        (Returned (sequence s + 1),
         set_txn (insert (sequence s + 1)
                    {| systolic := sys; diastolic := dia; heart_rate := hr;
                       timestamp := ts |})
           (set_sequence (sequence s + 1) s))
    | Some _ =>
        (Raised (IntegrityError
                   "duplicate key value violates unique constraint"),
         set_sequence (sequence s + 1) s)
    end
  else
    (Raised (DataError "nextval: reached maximum value of sequence"), s).
Proof.
  intros Hs Hd Hh.
  unfold insert_row, int_column.
  change (create_attrs sys dia hr ts !! "id") with (@None pyval).
  change (create_attrs sys dia hr ts !! "systolic") with (Some (PyInt sys)).
  change (create_attrs sys dia hr ts !! "diastolic") with (Some (PyInt dia)).
  change (create_attrs sys dia hr ts !! "heart_rate") with (Some (PyInt hr)).
  change (create_attrs sys dia hr ts !! "timestamp") with (Some (PyDatetime ts)).
  cbn beta iota. unfold int_value. rewrite Hs, Hd, Hh.
  unfold nextval, bind, get_state.
  case_bool_decide; [|done].
  cbn [modify ret txn set_sequence].
  destruct (txn s !! (sequence s + 1)); reflexivity.
Qed.

Lemma create_reading_run body clk db :
  in_bounds body →
  create_reading body (SessionLocal clk db) =
  let k := id_seq db + 1 in
  if bool_decide (id_seq db < INT4_MAX) then
    match table db !! k with
    | None =>
        (Returned (load k (row_of clk body)),
         {| durable := <[k := row_of clk body]> (table db);
            txn := <[k := row_of clk body]> (table db);
            sequence := k; objects := [Persistent k]; deleted := [];
            clock := clk |})
    | Some _ =>
        (Raised (IntegrityError
                   "duplicate key value violates unique constraint"),
         {| durable := table db; txn := table db; sequence := k;
            objects := [Expunged]; deleted := []; clock := clk |})
    end
  else
    (Raised (DataError "nextval: reached maximum value of sequence"),
     {| durable := table db; txn := table db; sequence := id_seq db;
        objects := [Expunged]; deleted := []; clock := clk |}).
Proof.
  intros (Hs & Hd & Hh)%in_bounds_int4.
  unfold create_reading, SessionLocal, row_of.
  assert (Hts : ∀ s : Session,
    match schemas.timestamp body with Some t => ret t | None => now end s
    = (Returned (default (clock s) (schemas.timestamp body)), s)).
  { intros s. by destruct (schemas.timestamp body). }
  unfold bind at 1. rewrite Hts. cbn [clock].
  rewrite init_create.
  unfold commit, flush, add, refresh, try_except, rollback.
  unfold bind, lift_outcome, get_state, modify, ret, raise.
  cbn [objects set_objects app flush_objects].
  unfold bind, ret. rewrite insert_row_create by done.
  cbn [txn sequence set_objects].
  case_bool_decide; [|by cbn].
  destruct (table db !! (id_seq db + 1)) eqn:E; cbn.
  - reflexivity.
  - rewrite lookup_insert_eq. reflexivity.
Qed.

Lemma close_SessionLocal clk db : close (SessionLocal clk db) = db.
Proof. by destruct db. Qed.

Lemma errors_nil_iff body : schemas.errors body = [] ↔ in_bounds body.
Proof.
  unfold schemas.errors, schemas.Field, in_bounds.
  repeat case_bool_decide; cbn; split; intros; try done; try lia.
Qed.

Lemma serve_POST body clk db :
  serve (POST_readings body) clk db =
  match schemas.errors body with
  | [] =>
      let k := id_seq db + 1 in
      if bool_decide (id_seq db < INT4_MAX) then
        match table db !! k with
        | None =>
            (Returned (Reading (load k (row_of clk body))),
             {| table := <[k := row_of clk body]> (table db); id_seq := k |})
        | Some _ =>
            (Raised (IntegrityError
                       "duplicate key value violates unique constraint"),
             {| table := table db; id_seq := k |})
        end
      else
        (Raised (DataError "nextval: reached maximum value of sequence"), db)
  | f :: fs => (Raised (RequestValidationError (f :: fs)), db)
  end.
Proof.
  unfold serve, get_db, route, schemas.validate.
  destruct (schemas.errors body) as [|f fs] eqn:Eb.
  - apply errors_nil_iff in Eb.
    unfold bind at 1. cbn [lift_outcome]. unfold bind at 1.
    rewrite create_reading_run by done. cbn zeta.
    case_bool_decide; [|by destruct db].
    destruct (table db !! (id_seq db + 1)); reflexivity.
  - unfold bind, lift_outcome. by rewrite close_SessionLocal.
Qed.

Lemma serve_GET_reading k clk db :
  serve (GET_reading k) clk db =
  match table db !! k with
  | Some r => (Returned (Reading (load k r)), db)
  | None => (Raised (HTTPException 404 "Reading not found"), db)
  end.
Proof.
  unfold serve, get_db, route, get_reading, query_filter_id_first.
  unfold bind, get_state, ret, raise. cbn [txn SessionLocal].
  destruct (table db !! k); cbn; by rewrite (close_SessionLocal clk db).
Qed.

Lemma serve_DELETE_reading k clk db :
  serve (DELETE_reading k) clk db =
  match table db !! k with
  | Some _ =>
      (Returned NoContent, {| table := delete k (table db); id_seq := id_seq db |})
  | None => (Raised (HTTPException 404 "Reading not found"), db)
  end.
Proof.
  unfold serve, get_db, route, delete_reading, query_filter_id_first.
  unfold bind at 1. unfold bind at 1. unfold bind at 1.
  cbn [get_state ret txn SessionLocal].
  destruct (table db !! k) as [r|] eqn:E; cbn [fmap option_fmap option_map].
  - unfold commit, flush, delete_, try_except.
    unfold bind, get_state, modify, ret. cbn. reflexivity.
  - unfold raise. by rewrite (close_SessionLocal clk db).
Qed.

Lemma serve_DELETE_readings clk db :
  serve DELETE_readings clk db =
  (Returned NoContent, {| table := ∅; id_seq := id_seq db |}).
Proof. reflexivity. Qed.

Lemma serve_GET_readings skip limit clk db :
  serve (GET_readings skip limit) clk db =
  match Query "skip" 0 0 None skip with
  | Raised e => (Raised e, db)
  | Returned skip =>
      match Query "limit" 100 1 (Some 100) limit with
      | Raised e => (Raised e, db)
      | Returned limit =>
          if row_count skip && row_count limit then
            (Returned (ReadingList {| schemas.readings :=
               take (Z.to_nat limit) (drop (Z.to_nat skip)
                 (merge_sort timestamp_desc (rows (table db)))) |}), db)
          else (Raised (DataError "bigint out of range"), db)
      end
  end.
Proof.
  unfold serve, get_db, route, get_readings, query_order_by_offset_limit_all.
  unfold bind, lift_outcome, get_state, ret, raise.
  destruct (Query "skip" 0 0 None skip) as [s|e],
           (Query "limit" 100 1 (Some 100) limit) as [n|e'];
    cbn [txn SessionLocal]; try by rewrite ?(close_SessionLocal clk db).
  destruct (row_count s && row_count n);
    by rewrite ?(close_SessionLocal clk db).
Qed.

Lemma Query_skip_spec skip :
  match Query "skip" 0 0 None skip with
  | Returned v => from_option (λ v, 0 ≤ v) True skip ∧ v = default 0 skip
  | Raised e => ¬ from_option (λ v, 0 ≤ v) True skip ∧
                e = RequestValidationError ["skip"]
  end.
Proof.
  destruct skip as [v|]; cbn; [|done].
  case_bool_decide; cbn; split; done.
Qed.

Lemma Query_limit_spec limit :
  match Query "limit" 100 1 (Some 100) limit with
  | Returned v => from_option (λ v, 1 ≤ v ≤ 100) True limit ∧
                  v = default 100 limit
  | Raised e => ¬ from_option (λ v, 1 ≤ v ≤ 100) True limit ∧
                e = RequestValidationError ["limit"]
  end.
Proof.
  destruct limit as [v|]; cbn; [|done].
  repeat case_bool_decide; cbn; split; try done; lia.
Qed.

Lemma row_count_true v : 0 ≤ v → v ≤ INT8_MAX → row_count v = true.
Proof. intros. unfold row_count. by rewrite !bool_decide_eq_true_2. Qed.

Lemma row_count_false v : INT8_MAX < v → row_count v = false.
Proof.
  intros. unfold row_count.
  rewrite (bool_decide_eq_false_2 (v ≤ INT8_MAX)) by lia. apply andb_false_r.
Qed.

(** What a list request answers with once its parameters have passed
    the checks of the endpoint and of the store. *)
Lemma serve_GET_readings_valid skip limit clk db :
  valid_window skip limit → offset_in_range skip →
  serve (GET_readings skip limit) clk db =
  (Returned (ReadingList {| schemas.readings :=
     take (Z.to_nat (default 100 limit)) (drop (Z.to_nat (default 0 skip))
       (merge_sort timestamp_desc (rows (table db)))) |}), db).
Proof.
  intros [Hs Hl] Ho. rewrite serve_GET_readings.
  pose proof (Query_skip_spec skip) as Qs.
  pose proof (Query_limit_spec limit) as Ql.
  destruct (Query "skip" 0 0 None skip) as [s|e]; [|by destruct Qs].
  destruct (Query "limit" 100 1 (Some 100) limit) as [n|e]; [|by destruct Ql].
  destruct Qs as [_ ->], Ql as [_ ->].
  assert (0 ≤ default 0 skip ∧ default 0 skip ≤ INT8_MAX) as [? ?].
  { unfold offset_in_range, INT8_MAX in *. destruct skip; cbn in *; lia. }
  assert (0 ≤ default 100 limit ∧ default 100 limit ≤ INT8_MAX) as [? ?].
  { unfold INT8_MAX. destruct limit; cbn in *; lia. }
  by rewrite !row_count_true.
Qed.

(** A skip that passes the check of the endpoint but is no [bigint]. *)
Lemma serve_GET_readings_overflow skip limit clk db :
  valid_window (Some skip) limit → INT8_MAX < skip →
  serve (GET_readings (Some skip) limit) clk db
  = (Raised (DataError "bigint out of range"), db).
Proof.
  intros [Hs Hl] Ho. rewrite serve_GET_readings.
  pose proof (Query_skip_spec (Some skip)) as Qs.
  pose proof (Query_limit_spec limit) as Ql.
  destruct (Query "skip" 0 0 None (Some skip)) as [s|e]; [|by destruct Qs].
  destruct (Query "limit" 100 1 (Some 100) limit) as [n|e]; [|by destruct Ql].
  destruct Qs as [_ ->]. cbn [default from_option].
  by rewrite row_count_false.
Qed.
(** ** The sequence stays ahead of the table *)

Lemma sequence_ahead_empty : sequence_ahead empty_db.
Proof. intros k [r Hr]. cbn [table empty_db] in Hr. by rewrite lookup_empty in Hr. Qed.

Lemma sequence_ahead_next_id_free db :
  sequence_ahead db → id_seq db < INT4_MAX → next_id_free db.
Proof.
  intros H Hmax. split; [done|].
  destruct (table db !! (id_seq db + 1)) eqn:E; [|done].
  specialize (H (id_seq db + 1) (mk_is_Some _ _ E)). lia.
Qed.

Lemma sequence_ahead_serve req clk db :
  sequence_ahead db → sequence_ahead (store_after req clk db).
Proof.
  intros H. unfold store_after. destruct req as [skip limit|body|k|k|].
  - rewrite serve_GET_readings.
    destruct (Query "skip" 0 0 None skip) as [s|]; [|done].
    destruct (Query "limit" 100 1 (Some 100) limit) as [n|]; [|done].
    by destruct (row_count s && row_count n).
  - rewrite serve_POST. destruct (schemas.errors body); [|done]. cbn zeta.
    case_bool_decide; [|done].
    destruct (table db !! (id_seq db + 1)) eqn:E; cbn.
    + intros j Hj. specialize (H j Hj). cbn. lia.
    + intros j. cbn. rewrite lookup_insert. case_decide; [lia|].
      intros Hj. specialize (H j Hj). lia.
  - rewrite serve_GET_reading. by destruct (table db !! k).
  - rewrite serve_DELETE_reading. destruct (table db !! k) eqn:E; [|done].
    intros j. cbn. rewrite lookup_delete. case_decide; [by intros [? ?]|].
    apply H.
  - rewrite serve_DELETE_readings. intros j [r Hr]. cbn [snd table] in Hr.
    by rewrite lookup_empty in Hr.
Qed.

(** ** Create, get, delete *)

(** C1: for a body within bounds, whenever create answers with a reading
    [r], the row stored under [id r] holds the body's systolic, diastolic
    and heart rate and the body's timestamp (or else the time of
    creation), and a following get of [id r] answers with the same [r],
    whose four fields are those stored values.  Create does answer with a
    reading when the next automatic id is free. *)
Theorem create_then_get body clk clk' db :
  in_bounds body →
  (next_id_free db →
   ∃ r db', serve (POST_readings body) clk db = (Returned (Reading r), db')) ∧
  (∀ r db',
     serve (POST_readings body) clk db = (Returned (Reading r), db') →
     table db' !! models.id r = Some (row_of clk body) ∧
     serve (GET_reading (models.id r)) clk' db' = (Returned (Reading r), db') ∧
     models.systolic r = schemas.systolic body ∧
     models.diastolic r = schemas.diastolic body ∧
     models.heart_rate r = schemas.heart_rate body ∧
     models.timestamp r = default clk (schemas.timestamp body)).
Proof.
  intros Hb. apply errors_nil_iff in Hb.
  rewrite serve_POST, Hb. cbn zeta. split.
  - intros [Hmax ->]. rewrite bool_decide_eq_true_2 by done. by eexists _, _.
  - intros r db' H. case_bool_decide; [|done].
    destruct (table db !! (id_seq db + 1)) eqn:E; [done|].
    injection H as <- <-. cbn [load models.id table].
    split; [apply lookup_insert_eq|].
    split; [|done].
    rewrite serve_GET_reading. cbn [table]. by rewrite lookup_insert_eq.
Qed.

Lemma create_then_get_witness :
  ∃ r db',
    serve (POST_readings sample_body) 1000 empty_db = (Returned (Reading r), db') ∧
    table db' !! models.id r = Some (row_of 1000 sample_body) ∧
    serve (GET_reading (models.id r)) 2000 db' = (Returned (Reading r), db') ∧
    models.systolic r = 120 ∧
    models.diastolic r = 80 ∧
    models.heart_rate r = 60 ∧
    models.timestamp r = 1000.
Proof.
  assert (Hb : in_bounds sample_body) by (unfold in_bounds; cbn; lia).
  destruct (create_then_get sample_body 1000 2000 empty_db Hb) as [Hex Hrt].
  destruct Hex as (r & db' & Hpost); [by split|].
  exists r, db'. split; [exact Hpost|]. exact (Hrt r db' Hpost).
Defined.

Lemma validate_in_bounds body :
  schemas.validate body = Returned body ↔ in_bounds body.
Proof.
  rewrite <- errors_nil_iff. unfold schemas.validate.
  destruct (schemas.errors body); split; done.
Qed.

(** C5: the body passes validation exactly when the three numeric fields
    are within their bounds.  A body out of bounds is answered with a
    validation error (status 422) and the store is left as it was; a body
    within bounds reaches the handler, which inserts one row when the next
    id is free.  Systolic 300 passes and 301 does not; a body whose
    systolic is below its diastolic passes. *)
Theorem create_accepts_iff_in_bounds body clk db :
  (schemas.validate body = Returned body ↔ in_bounds body) ∧
  (¬ in_bounds body →
     ∃ errs, serve (POST_readings body) clk db
             = (Raised (RequestValidationError errs), db) ∧
             status_of (RequestValidationError errs) = 422) ∧
  (in_bounds body → next_id_free db →
     ∃ r, serve (POST_readings body) clk db
          = (Returned (Reading r),
             {| table := <[models.id r := row_of clk body]> (table db);
                id_seq := models.id r |}) ∧
          table db !! models.id r = None) ∧
  (∀ dia hr ts, 20 ≤ dia ≤ 200 → 20 ≤ hr ≤ 250 →
     in_bounds {| schemas.systolic := 300; schemas.diastolic := dia;
                  schemas.heart_rate := hr; schemas.timestamp := ts |} ∧
     schemas.validate {| schemas.systolic := 301; schemas.diastolic := dia;
                         schemas.heart_rate := hr; schemas.timestamp := ts |}
     = Raised (RequestValidationError ["systolic"])) ∧
  in_bounds {| schemas.systolic := 60; schemas.diastolic := 150;
               schemas.heart_rate := 70; schemas.timestamp := None |}.
Proof.
  split; [apply validate_in_bounds|].
  split.
  { intros Hn. rewrite serve_POST.
    destruct (schemas.errors body) as [|f fs] eqn:E.
    - by apply errors_nil_iff in E.
    - by eexists. }
  split.
  { intros Hb [Hmax Hfree]. apply errors_nil_iff in Hb.
    rewrite serve_POST, Hb. cbn zeta.
    rewrite bool_decide_eq_true_2, Hfree by done.
    exists (load (id_seq db + 1) (row_of clk body)). by split. }
  split.
  { intros dia hr ts Hd Hh. split.
    - unfold in_bounds. cbn. lia.
    - unfold schemas.validate, schemas.errors, schemas.Field.
      cbn [schemas.systolic schemas.diastolic schemas.heart_rate].
      rewrite (bool_decide_eq_false_2 (301 ≤ 300)) by lia.
      rewrite !bool_decide_eq_true_2 by lia. reflexivity. }
  unfold in_bounds. cbn. lia.
Qed.

Lemma create_accepts_iff_in_bounds_witness :
  (∃ r, serve (POST_readings sample_body) 1000 empty_db
        = (Returned (Reading r),
           {| table := <[models.id r := row_of 1000 sample_body]> ∅;
              id_seq := models.id r |}) ∧
        (∅ : gmap Z Row) !! models.id r = None) ∧
  schemas.validate {| schemas.systolic := 301; schemas.diastolic := 80;
                      schemas.heart_rate := 60; schemas.timestamp := None |}
  = Raised (RequestValidationError ["systolic"]).
Proof.
  destruct (create_accepts_iff_in_bounds sample_body 1000 empty_db)
    as (_ & _ & Hacc & Hedge & _).
  split.
  - apply Hacc; [unfold in_bounds; cbn; lia | by split].
  - apply (Hedge 80 60 None); lia.
Defined.

(** C6: for an id that is not in the store, get and delete each answer
    with the not-found error (status 404), and neither changes the
    store. *)
Theorem absent_id_not_found reading_id clk db :
  table db !! reading_id = None →
  serve (GET_reading reading_id) clk db
    = (Raised (HTTPException 404 "Reading not found"), db) ∧
  serve (DELETE_reading reading_id) clk db
    = (Raised (HTTPException 404 "Reading not found"), db) ∧
  status_of (HTTPException 404 "Reading not found") = 404.
Proof.
  intros H. rewrite serve_GET_reading, serve_DELETE_reading, H. done.
Qed.

Lemma absent_id_not_found_witness :
  serve (GET_reading 7) 1000 empty_db
    = (Raised (HTTPException 404 "Reading not found"), empty_db) ∧
  serve (DELETE_reading 7) 1000 empty_db
    = (Raised (HTTPException 404 "Reading not found"), empty_db) ∧
  status_of (HTTPException 404 "Reading not found") = 404.
Proof. apply (absent_id_not_found 7 1000 empty_db). reflexivity. Defined.

(** C8: whenever create answers with a reading, the timestamp stored for
    it (and returned) is the time of creation when the body has no
    timestamp, and the body's timestamp when it has one.  Create does
    answer with a reading when the body is within bounds and the next
    automatic id is free. *)
Theorem create_timestamp_default body clk db :
  (in_bounds body → next_id_free db →
   ∃ r db', serve (POST_readings body) clk db = (Returned (Reading r), db')) ∧
  (∀ r db',
     serve (POST_readings body) clk db = (Returned (Reading r), db') →
     (timestamp <$> table db' !! models.id r) = Some (models.timestamp r) ∧
     (schemas.timestamp body = None → models.timestamp r = clk) ∧
     (∀ t, schemas.timestamp body = Some t → models.timestamp r = t)).
Proof.
  rewrite serve_POST. split.
  - intros Hb [Hmax Hfree]. apply errors_nil_iff in Hb. rewrite Hb. cbn zeta.
    rewrite bool_decide_eq_true_2, Hfree by done. by eexists _, _.
  - intros r db' H. destruct (schemas.errors body); [|done]. cbn zeta in H.
    case_bool_decide; [|done].
    destruct (table db !! (id_seq db + 1)) eqn:E; [done|].
    injection H as <- <-.
    cbn [load models.id models.timestamp table row_of timestamp].
    rewrite lookup_insert_eq. split; [done|].
    split; [by intros ->|]. by intros t ->.
Qed.

Lemma create_timestamp_default_witness :
  ∃ r db',
    serve (POST_readings sample_body) 1000 empty_db = (Returned (Reading r), db') ∧
    (timestamp <$> table db' !! models.id r) = Some (models.timestamp r) ∧
    models.timestamp r = 1000.
Proof.
  destruct (create_timestamp_default sample_body 1000 empty_db) as [Hex Hts].
  destruct Hex as (r & db' & Hpost);
    [unfold in_bounds; cbn; lia | by split |].
  exists r, db'. split; [exact Hpost|].
  destruct (Hts r db' Hpost) as (Hstored & Hnone & _).
  split; [exact Hstored | exact (Hnone eq_refl)].
Defined.





(** ** Listing *)

Lemma elem_of_rows (t : gmap Z Row) r :
  r ∈ rows t ↔ t !! models.id r = Some (row_part r).
Proof.
  unfold rows. rewrite list_elem_of_fmap. split.
  - intros [[k row] [-> Hin]]. apply elem_of_map_to_list in Hin.
    cbn. by destruct row.
  - intros H. exists (models.id r, row_part r). split.
    + by destruct r.
    + by apply elem_of_map_to_list.
Qed.

Lemma timestamp_desc_le a b :
  timestamp_desc a b → models.timestamp b ≤ models.timestamp a.
Proof. unfold timestamp_desc. lia. Qed.








(** ** No request changes a stored reading *)

Lemma table_after req clk db :
  match req with
  | GET_readings _ _ | GET_reading _ =>
      table (store_after req clk db) = table db
  | POST_readings body =>
      table (store_after req clk db) = table db ∨
      ∃ k, table db !! k = None ∧
           table (store_after req clk db) = <[k := row_of clk body]> (table db)
  | DELETE_reading k =>
      table (store_after req clk db) = delete k (table db)
  | DELETE_readings =>
      table (store_after req clk db) = ∅
  end.
Proof.
  unfold store_after. destruct req as [skip limit|body|k|k|].
  - rewrite serve_GET_readings.
    destruct (Query "skip" 0 0 None skip) as [s|]; [|done].
    destruct (Query "limit" 100 1 (Some 100) limit) as [n|]; [|done].
    by destruct (row_count s && row_count n).
  - rewrite serve_POST. destruct (schemas.errors body); [|by left]. cbn zeta.
    case_bool_decide; [|by left].
    destruct (table db !! (id_seq db + 1)) eqn:E; [by left|].
    right. by exists (id_seq db + 1).
  - rewrite serve_GET_reading. by destruct (table db !! k).
  - rewrite serve_DELETE_reading. destruct (table db !! k) eqn:E; [done|].
    cbn [snd]. by rewrite delete_id.
  - by rewrite serve_DELETE_readings.
Qed.

(** C9: whatever the request (list, create, get, delete, delete-all), a
    reading that is in the store before and after it has the same id and
    the same systolic, diastolic, heart rate and timestamp.  List and get
    leave the table as it is, create leaves it or adds one row under an
    id that was free, delete removes at most the row of the given id, and
    delete-all empties the table. *)
Theorem readings_never_mutated req clk db :
  (∀ k row row',
     table db !! k = Some row →
     table (store_after req clk db) !! k = Some row' →
     row' = row) ∧
  match req with
  | GET_readings _ _ | GET_reading _ =>
      table (store_after req clk db) = table db
  | POST_readings body =>
      table (store_after req clk db) = table db ∨
      ∃ k, table db !! k = None ∧
           table (store_after req clk db) = <[k := row_of clk body]> (table db)
  | DELETE_reading k =>
      table (store_after req clk db) = delete k (table db)
  | DELETE_readings =>
      table (store_after req clk db) = ∅
  end.
Proof.
  split; [|apply table_after].
  intros k row row' Hk Hk'. pose proof (table_after req clk db) as H.
  destruct req as [skip limit|body|j|j|].
  - rewrite H in Hk'. congruence.
  - destruct H as [H|(j & Hj & H)]; rewrite H in Hk'; [congruence|].
    rewrite lookup_insert_ne in Hk' by congruence. congruence.
  - rewrite H in Hk'. congruence.
  - rewrite H in Hk'. apply lookup_delete_Some in Hk' as [_ Hk']. congruence.
  - rewrite H in Hk'. by rewrite lookup_empty in Hk'.
Qed.

Lemma readings_never_mutated_witness :
  table (store_after (POST_readings sample_body) 500 empty_db) !! 1
    = Some (row_of 500 sample_body) ∧
  table (store_after (POST_readings sample_body) 600
           (store_after (POST_readings sample_body) 500 empty_db)) !! 1
    = Some (row_of 500 sample_body) ∧
  row_of 500 sample_body = row_of 500 sample_body.
Proof.
  split; [reflexivity|]. split; [reflexivity|].
  apply (proj1 (readings_never_mutated (POST_readings sample_body) 600
                  (store_after (POST_readings sample_body) 500 empty_db))
           1 (row_of 500 sample_body) (row_of 500 sample_body));
    reflexivity.
Defined.


(** ** The migration script *)

Import migrate.

Lemma init_note id sys dia hr ts note :
  models.init [("id", id); ("systolic", sys); ("diastolic", dia);
               ("heart_rate", hr); ("timestamp", ts); ("note", note)]
  = Raised (TypeError "note is an invalid keyword argument for BloodPressureReading").
Proof. reflexivity. Qed.

(** The loop body never gets as far as [db.add]: some keyword fails to
    evaluate, or the constructor refuses [note]. *)
Lemma migrate_reading_raises parse_iso reading st :
  ∃ e, migrate_reading parse_iso reading st = (Raised e, st).
Proof.
  unfold migrate_reading, getitem, fromisoformat.
  unfold bind at 1.
  destruct (reading !! "id") as [id|]; [|by eexists]. cbn [ret].
  unfold bind at 1.
  destruct (reading !! "systolic") as [sys|]; [|by eexists]. cbn [ret].
  unfold bind at 1.
  destruct (reading !! "diastolic") as [dia|]; [|by eexists]. cbn [ret].
  unfold bind at 1.
  destruct (reading !! "heart_rate") as [hr|]; [|by eexists]. cbn [ret].
  unfold bind at 1.
  destruct (reading !! "timestamp") as [ts|]; [|by eexists]. cbn [ret].
  unfold bind at 1.
  destruct ts as [|n|s|t]; try by eexists.
  destruct (parse_iso s) as [t|]; [|by eexists]. cbn [ret].
  unfold bind at 1.
  destruct (reading !! "note") as [note|]; [|by eexists]. cbn [ret].
  rewrite init_note. by eexists.
Qed.

Lemma bind_returned {St A B} (m : M St A) (k : A → M St B) s a s' :
  m s = (Returned a, s') → bind m k s = k a s'.
Proof. unfold bind. by intros ->. Qed.

Lemma bind_raised {St A B} (m : M St A) (k : A → M St B) s e s' :
  m s = (Raised e, s') → bind m k s = (Raised e, s').
Proof. unfold bind. by intros ->. Qed.

Lemma migrate_data_run parse_iso (textual : bool) w :
  match files w !! SQLITE_DB_PATH with
  | None =>
      migrate_data parse_iso textual w
      = after_run w (postgres w) [SqliteNotFound]
  | Some sqlite =>
      match sqlite !! models.__tablename__ with
      | None =>
          ∃ e, migrate_data parse_iso textual w
               = after_run w (postgres w) [ErrorDuringMigration e]
      | Some (reading :: rest) =>
          ∃ e, migrate_data parse_iso textual w
               = after_run w (postgres w)
                   [Found (S (length rest)); ErrorDuringMigration e]
      | Some [] =>
          if textual then
            match max_id (table (postgres w)) with
            | None =>
                migrate_data parse_iso textual w
                = after_run w (postgres w) [Found 0; Migrated 0]
            | Some m =>
                if bool_decide (1 ≤ m) && bool_decide (m ≤ INT4_MAX) then
                  migrate_data parse_iso textual w
                  = after_run w {| table := table (postgres w); id_seq := m |}
                      [Found 0; Migrated 0]
                else
                  ∃ e, migrate_data parse_iso textual w
                       = after_run w (postgres w)
                           [Found 0; ErrorDuringMigration e]
            end
          else
            ∃ msg, migrate_data parse_iso textual w
                   = after_run w (postgres w)
                       [Found 0; ErrorDuringMigration (ArgumentError msg)]
      end
  end.
Proof.
  unfold migrate_data, after_run.
  destruct (files w !! SQLITE_DB_PATH) as [sqlite|]; [|done].
  unfold try_except, migrate_try, migrate_except, select_all.
  unfold bind at 1.
  destruct (sqlite !! models.__tablename__) as [[|reading rest]|].
  - cbn [ret]. unfold bind at 1. cbn [print modify].
    unfold bind at 1. cbn [for_each ret].
    unfold on_db, zoom, commit, flush, try_except, execute_setval_max_id.
    destruct textual.
    + unfold bind, get_state, modify, ret, raise, rollback, print.
      cbn [db SessionLocal objects flush_objects ret txn deleted foldr
           set_objects set_txn set_deleted set_durable durable sequence out
           store.clock].
      destruct (max_id (table (postgres w))) as [m|] eqn:Em.
      * destruct (bool_decide (1 ≤ m) && bool_decide (m ≤ INT4_MAX)) eqn:Hm.
        -- cbn -[max_id INT4_MAX]. rewrite ?Em, ?Hm.
           cbn. by rewrite <- (assoc_L (++)).
        -- exists (DataError "setval: value out of bounds for sequence").
           cbn -[max_id INT4_MAX]. rewrite ?Em, ?Hm.
           cbn. rewrite <- (assoc_L (++)). by destruct (postgres w).
      * cbn -[max_id]. rewrite ?Em. cbn.
        rewrite <- (assoc_L (++)). by destruct (postgres w).
    + eexists.
      unfold bind, get_state, modify, ret, raise, rollback, print.
      cbn. rewrite <- (assoc_L (++)). by destruct (postgres w).
  - destruct (migrate_reading_raises parse_iso reading
                {| db := SessionLocal (clock w) (postgres w);
                   out := stdout w ++ [Found (length (reading :: rest))] |})
      as [e He].
    exists e.
    erewrite bind_returned by reflexivity.
    erewrite bind_returned by reflexivity.
    erewrite bind_raised
      by (cbn [for_each]; erewrite bind_raised by apply He; reflexivity).
    unfold on_db, zoom, rollback, print, bind, modify. cbn.
    rewrite <- (assoc_L (++)). by destruct (postgres w).
  - eexists. unfold raise, on_db, zoom, rollback, print, bind, modify. cbn.
    by destruct (postgres w).
Qed.

(** Whatever the source holds, the script leaves the rows of the target
    as they were. *)
Lemma migrate_data_table parse_iso textual w :
  table (postgres (migrate_data parse_iso textual w)) = table (postgres w).
Proof.
  pose proof (migrate_data_run parse_iso textual w) as H.
  destruct (files w !! SQLITE_DB_PATH) as [sqlite|]; [|by rewrite H].
  destruct (sqlite !! models.__tablename__) as [[|reading rest]|].
  - destruct textual; [|by destruct H as [e ->]].
    destruct (max_id (table (postgres w))) as [m|]; [|by rewrite H].
    destruct (bool_decide (1 ≤ m) && bool_decide (m ≤ INT4_MAX));
      [by rewrite H|]. by destruct H as [e ->].
  - by destruct H as [e ->].
  - by destruct H as [e ->].
Qed.

(** C2 (what the code does on that input): with a source of rows 1 to 5
    and an empty target, the script reports an error, the target is still
    the empty store, and the next create gets id 1. *)
Theorem migrate_five_rows_copies_nothing parse_iso textual clk clk' :
  reported_error (migrate_data parse_iso textual (five_rows_world clk)) ∧
  postgres (migrate_data parse_iso textual (five_rows_world clk)) = empty_db ∧
  ∃ r db',
    serve (POST_readings sample_body) clk'
      (postgres (migrate_data parse_iso textual (five_rows_world clk)))
      = (Returned (Reading r), db') ∧
    models.id r = 1.
Proof.
  pose proof (migrate_data_run parse_iso textual (five_rows_world clk)) as H.
  change (files (five_rows_world clk) !! SQLITE_DB_PATH)
    with (Some ({[ models.__tablename__ := five_rows ]}
                  : gmap string (list (gmap string pyval)))) in H.
  cbn beta iota in H.
  change (({[ models.__tablename__ := five_rows ]}
             : gmap string (list (gmap string pyval))) !! models.__tablename__)
    with (Some five_rows) in H.
  unfold five_rows at 1 in H. destruct H as [e ->].
  split; [|split].
  - exists e. cbn [stdout after_run five_rows_world app]. reflexivity.
  - reflexivity.
  - eexists _, _. split; reflexivity.
Qed.


(** * Further properties of the handlers *)

(** ** The list endpoint: its checks and its window *)

(** X1: a list request whose given parameters pass the checks of the
    endpoint (skip at least 0, limit from 1 to 100, either may be
    omitted) is answered with a list when the skip is at most 2^63 - 1,
    and with the store's error, status 500, when it is larger; any other
    list request is answered with a validation error, status 422.  None
    of them changes the store. *)
Theorem list_rejects_iff_invalid skip limit clk db :
  (valid_window skip limit → offset_in_range skip →
   ∃ l, serve (GET_readings skip limit) clk db
        = (Returned (ReadingList l), db)) ∧
  (valid_window skip limit → ¬ offset_in_range skip →
   serve (GET_readings skip limit) clk db
     = (Raised (DataError "bigint out of range"), db) ∧
   status_of (DataError "bigint out of range") = 500) ∧
  (¬ valid_window skip limit →
   ∃ fields, serve (GET_readings skip limit) clk db
             = (Raised (RequestValidationError fields), db) ∧
             status_of (RequestValidationError fields) = 422).
Proof.
  split; [|split].
  - intros H Ho. rewrite serve_GET_readings_valid by done. by eexists.
  - intros H Ho. destruct skip as [skip|]; [|by destruct Ho].
    split; [|done]. apply serve_GET_readings_overflow; [done|].
    unfold offset_in_range in Ho. cbn in Ho. lia.
  - intros H. rewrite serve_GET_readings.
    pose proof (Query_skip_spec skip) as Qs.
    pose proof (Query_limit_spec limit) as Ql.
    destruct (Query "skip" 0 0 None skip) as [s|e].
    + destruct (Query "limit" 100 1 (Some 100) limit) as [n|e].
      * destruct H. split; [apply Qs | apply Ql].
      * destruct Ql as [_ ->]. by eexists.
    + destruct Qs as [_ ->]. by eexists.
Qed.

Lemma list_rejects_iff_invalid_witness :
  (∃ l, serve (GET_readings (Some 0) None) 1000 empty_db
        = (Returned (ReadingList l), empty_db)) ∧
  serve (GET_readings (Some 9223372036854775808) None) 1000 empty_db
    = (Raised (DataError "bigint out of range"), empty_db) ∧
  (∃ fields, serve (GET_readings None (Some 101)) 1000 empty_db
             = (Raised (RequestValidationError fields), empty_db) ∧
             status_of (RequestValidationError fields) = 422).
Proof.
  split; [|split].
  - apply (proj1 (list_rejects_iff_invalid (Some 0) None 1000 empty_db)).
    + unfold valid_window. cbn. lia.
    + unfold offset_in_range, INT8_MAX. cbn. lia.
  - apply (proj1 (proj2 (list_rejects_iff_invalid
                           (Some 9223372036854775808) None 1000 empty_db))).
    + unfold valid_window. cbn. lia.
    + unfold offset_in_range, INT8_MAX. cbn. lia.
  - apply (proj2 (proj2 (list_rejects_iff_invalid None (Some 101) 1000
                           empty_db))).
    unfold valid_window. cbn. lia.
Defined.

Lemma length_rows (t : gmap Z Row) : length (rows t) = size t.
Proof. unfold rows. by rewrite length_fmap, length_map_to_list. Qed.

Lemma length_sorted_rows (t : gmap Z Row) :
  length (merge_sort timestamp_desc (rows t)) = size t.
Proof.
  rewrite (Permutation_length (merge_sort_Permutation timestamp_desc (rows t))).
  apply length_rows.
Qed.

(** X2: a list request that passes the checks of the endpoint, with a
    skip of at most 2^63 - 1, answers with exactly
    [min limit (size - skip)] records, where omitted parameters count as
    skip 0 and limit 100; in particular with none when [skip] is at or
    past the number of stored records. *)
Theorem list_length skip limit clk db :
  valid_window skip limit → offset_in_range skip →
  ∃ l,
    serve (GET_readings skip limit) clk db
      = (Returned (ReadingList {| schemas.readings := l |}), db) ∧
    length l = Nat.min (Z.to_nat (default 100 limit))
                 (Nat.sub (size (table db)) (Z.to_nat (default 0 skip))) ∧
    (Z.of_nat (size (table db)) ≤ default 0 skip → l = []).
Proof.
  intros H Ho. eexists. split; [by apply serve_GET_readings_valid|].
  split.
  - by rewrite length_take, length_drop, length_sorted_rows.
  - intros Hpast. rewrite drop_ge; [by rewrite take_nil|].
    rewrite length_sorted_rows. lia.
Qed.

Lemma list_length_witness :
  ∃ l,
    serve (GET_readings (Some 1) (Some 5)) 2000
      (store_after (POST_readings sample_body) 500 empty_db)
      = (Returned (ReadingList {| schemas.readings := l |}),
         store_after (POST_readings sample_body) 500 empty_db) ∧
    length l = Nat.min (Z.to_nat 5)
      (Nat.sub
         (size (table (store_after (POST_readings sample_body) 500 empty_db)))
         (Z.to_nat 1)) ∧
    (Z.of_nat (size (table (store_after (POST_readings sample_body) 500
                              empty_db))) ≤ 1 → l = []).
Proof.
  apply (list_length (Some 1) (Some 5) 2000
           (store_after (POST_readings sample_body) 500 empty_db)).
  - unfold valid_window. cbn. lia.
  - unfold offset_in_range, INT8_MAX. cbn. lia.
Defined.

Lemma load_row_part r : load (models.id r) (row_part r) = r.
Proof. by destruct r. Qed.

Lemma row_part_load k row : row_part (load k row) = row.
Proof. by destruct row. Qed.

Lemma elem_of_rows_load (t : gmap Z Row) k row :
  load k row ∈ rows t ↔ t !! k = Some row.
Proof. by rewrite elem_of_rows, row_part_load. Qed.

Lemma NoDup_rows_id (t : gmap Z Row) : NoDup (models.id <$> rows t).
Proof.
  unfold rows. rewrite <- list_fmap_compose.
  apply (NoDup_fst_map_to_list t).
Qed.

(** X3: when nothing is skipped and the limit is at least the number of
    stored records, the list is a rearrangement of all the records of the
    store: every stored reading is listed, once. *)
Theorem list_covers_store limit clk db :
  valid_window None limit →
  Z.of_nat (size (table db)) ≤ default 100 limit →
  ∃ l,
    serve (GET_readings None limit) clk db
      = (Returned (ReadingList {| schemas.readings := l |}), db) ∧
    l ≡ₚ rows (table db) ∧
    (∀ k row, table db !! k = Some row → load k row ∈ l).
Proof.
  intros H Hsize. eexists. split; [by apply serve_GET_readings_valid|].
  cbn [default from_option]. change (Z.to_nat 0) with 0%nat. rewrite drop_0.
  rewrite take_ge by (rewrite length_sorted_rows; lia).
  split; [apply merge_sort_Permutation|].
  intros k row Hk. rewrite (merge_sort_Permutation timestamp_desc).
  by apply elem_of_rows_load.
Qed.

Lemma list_covers_store_witness :
  ∃ l,
    serve (GET_readings None None) 2000
      (store_after (POST_readings sample_body) 500 empty_db)
      = (Returned (ReadingList {| schemas.readings := l |}),
         store_after (POST_readings sample_body) 500 empty_db) ∧
    l ≡ₚ rows (table (store_after (POST_readings sample_body) 500 empty_db)) ∧
    (∀ k row,
       table (store_after (POST_readings sample_body) 500 empty_db) !! k
         = Some row → load k row ∈ l).
Proof.
  apply (list_covers_store None 2000
           (store_after (POST_readings sample_body) 500 empty_db)).
  - unfold valid_window. cbn. done.
  - vm_compute. discriminate.
Defined.

(** X4: every reading of a list answer can be fetched by its id, and get
    answers with that very reading; no two readings of a list answer have
    the same id. *)
Theorem listed_readings_are_fetchable skip limit clk clk' db l db' :
  serve (GET_readings skip limit) clk db = (Returned (ReadingList l), db') →
  db' = db ∧
  NoDup (models.id <$> schemas.readings l) ∧
  (∀ r, r ∈ schemas.readings l →
        serve (GET_reading (models.id r)) clk' db
        = (Returned (Reading r), db)).
Proof.
  rewrite serve_GET_readings.
  destruct (Query "skip" 0 0 None skip) as [s|e]; [|done].
  destruct (Query "limit" 100 1 (Some 100) limit) as [n|e]; [|done].
  destruct (row_count s && row_count n); [|done].
  intros [= <- <-]. split; [done|]. cbn [schemas.readings].
  assert (Hsub : take (Z.to_nat n) (drop (Z.to_nat s)
                   (merge_sort timestamp_desc (rows (table db))))
                 `sublist_of` merge_sort timestamp_desc (rows (table db))).
  { etrans; [apply sublist_take | apply sublist_drop]. }
  split.
  - eapply sublist_NoDup; [|by apply fmap_sublist].
    rewrite (merge_sort_Permutation timestamp_desc). apply NoDup_rows_id.
  - intros r Hr. eapply sublist_subseteq in Hr; [|exact Hsub].
    rewrite (merge_sort_Permutation timestamp_desc) in Hr.
    apply elem_of_rows in Hr.
    by rewrite serve_GET_reading, Hr, load_row_part.
Qed.

Lemma listed_readings_are_fetchable_witness :
  NoDup (models.id <$> [load 1 (row_of 500 sample_body)]) ∧
  (∀ r, r ∈ [load 1 (row_of 500 sample_body)] →
        serve (GET_reading (models.id r)) 3000
          (store_after (POST_readings sample_body) 500 empty_db)
        = (Returned (Reading r),
           store_after (POST_readings sample_body) 500 empty_db)).
Proof.
  apply (listed_readings_are_fetchable None None 2000 3000
           (store_after (POST_readings sample_body) 500 empty_db)
           {| schemas.readings := [load 1 (row_of 500 sample_body)] |}
           (store_after (POST_readings sample_body) 500 empty_db)).
  reflexivity.
Defined.

(** ** Create and delete, seen through list and get *)

Lemma sorted_head_is_latest (t : gmap Z Row) h tl :
  merge_sort timestamp_desc (rows t) = h :: tl →
  h ∈ rows t ∧ ∀ r, r ∈ rows t → models.timestamp r ≤ models.timestamp h.
Proof.
  intros E.
  pose proof (StronglySorted_merge_sort timestamp_desc (rows t)) as Hs.
  pose proof (merge_sort_Permutation timestamp_desc (rows t)) as Hp.
  rewrite E in Hs, Hp. split.
  - rewrite <- Hp. left.
  - intros r Hr. rewrite <- Hp in Hr.
    apply StronglySorted_inv in Hs as [_ Hall].
    apply timestamp_desc_le.
    apply elem_of_cons in Hr as [->|Hr]; [unfold timestamp_desc; lia|].
    rewrite Forall_forall in Hall. by apply Hall.
Qed.

(** X5: a reading created with a timestamp later than that of every
    stored reading comes first in the next list, for any accepted limit
    and no skip. *)
Theorem newest_reading_listed_first body limit clk clk' db r db' :
  (∀ k row, table db !! k = Some row →
            timestamp row < default clk (schemas.timestamp body)) →
  valid_window None limit →
  serve (POST_readings body) clk db = (Returned (Reading r), db') →
  ∃ l,
    serve (GET_readings None limit) clk' db'
      = (Returned (ReadingList {| schemas.readings := l |}), db') ∧
    head l = Some r.
Proof.
  intros Hlate Hw. rewrite serve_POST.
  destruct (schemas.errors body); [|done]. cbn zeta.
  case_bool_decide; [|done].
  destruct (table db !! (id_seq db + 1)) eqn:Efree; [done|].
  intros [= <- <-].
  eexists. split; [by apply serve_GET_readings_valid|].
  cbn [default from_option table]. change (Z.to_nat 0) with 0%nat.
  rewrite drop_0.
  set (k := id_seq db + 1) in *. set (t' := <[k := row_of clk body]> (table db)).
  assert (Hin : load k (row_of clk body) ∈ rows t').
  { apply elem_of_rows_load. apply lookup_insert_eq. }
  destruct (merge_sort timestamp_desc (rows t')) as [|h tl] eqn:E.
  { rewrite <- (merge_sort_Permutation timestamp_desc), E in Hin.
    by apply elem_of_nil in Hin. }
  destruct (sorted_head_is_latest t' h tl E) as [Hh Hmax].
  assert (Hn : 0 < default 100 limit).
  { destruct Hw as [_ Hl]. destruct limit; cbn in *; lia. }
  destruct (Z.to_nat (default 100 limit)) as [|n] eqn:En; [lia|].
  cbn [take head].
  f_equal. apply elem_of_rows in Hh. unfold t' in Hh.
  rewrite lookup_insert in Hh. case_decide as Hk.
  - assert (Hrow : row_of clk body = row_part h) by congruence.
    rewrite Hrow, Hk. symmetry. apply load_row_part.
  - apply Hlate in Hh. specialize (Hmax _ Hin).
    cbn [load models.timestamp row_of timestamp row_part] in Hmax, Hh. lia.
Qed.

Lemma newest_reading_listed_first_witness :
  ∃ l,
    serve (GET_readings None (Some 1)) 3000
      (store_after (POST_readings sample_body) 600
         (store_after (POST_readings sample_body) 500 empty_db))
      = (Returned (ReadingList {| schemas.readings := l |}),
         store_after (POST_readings sample_body) 600
           (store_after (POST_readings sample_body) 500 empty_db)) ∧
    head l = Some (load 2 (row_of 600 sample_body)).
Proof.
  apply (newest_reading_listed_first sample_body (Some 1) 600 3000
           (store_after (POST_readings sample_body) 500 empty_db)).
  - intros k row. change (table _) with
      (<[1 := row_of 500 sample_body]> (∅ : gmap Z Row)).
    rewrite lookup_insert. case_decide; [|by rewrite lookup_empty].
    intros [= <-]. cbn. lia.
  - unfold valid_window. cbn. lia.
  - reflexivity.
Defined.

(** X6: after a create that answered with a reading, the store holds one
    record more, and when it held fewer than 100 before, the list with no
    parameters contains the new reading. *)
Theorem created_reading_is_listed body clk clk' db r db' :
  serve (POST_readings body) clk db = (Returned (Reading r), db') →
  size (table db') = S (size (table db)) ∧
  ((size (table db) < 100)%nat →
   ∃ l,
     serve (GET_readings None None) clk' db'
       = (Returned (ReadingList {| schemas.readings := l |}), db') ∧
     r ∈ l ∧ length l = S (size (table db))).
Proof.
  rewrite serve_POST.
  destruct (schemas.errors body); [|done]. cbn zeta.
  case_bool_decide; [|done].
  destruct (table db !! (id_seq db + 1)) eqn:Efree; [done|].
  intros [= <- <-]. cbn [table].
  assert (Hsize : size (<[id_seq db + 1 := row_of clk body]> (table db))
                  = S (size (table db))) by by apply map_size_insert_None.
  split; [done|]. intros Hlt.
  eexists. split; [by apply serve_GET_readings_valid|].
  cbn [default table]. change (Z.to_nat 0) with 0%nat.
  change (Z.to_nat 100) with 100%nat. rewrite drop_0.
  rewrite take_ge by (rewrite length_sorted_rows, Hsize; exact Hlt).
  split.
  - rewrite (merge_sort_Permutation timestamp_desc).
    apply elem_of_rows_load, lookup_insert_eq.
  - by rewrite length_sorted_rows.
Qed.

Lemma created_reading_is_listed_witness :
  size (table (store_after (POST_readings sample_body) 500 empty_db)) = 1%nat ∧
  ∃ l,
    serve (GET_readings None None) 900
      (store_after (POST_readings sample_body) 500 empty_db)
      = (Returned (ReadingList {| schemas.readings := l |}),
         store_after (POST_readings sample_body) 500 empty_db) ∧
    load 1 (row_of 500 sample_body) ∈ l ∧ length l = 1%nat.
Proof.
  destruct (created_reading_is_listed sample_body 500 900 empty_db
              (load 1 (row_of 500 sample_body))
              (store_after (POST_readings sample_body) 500 empty_db)
              eq_refl) as [Hsize Hlist].
  split; [exact Hsize|]. apply Hlist. change (0 < 100)%nat. lia.
Defined.

(** X7: deleting a reading that is in the store answers 204, leaves one
    record fewer and keeps the id sequence; from then on get and delete
    of that id answer 404, and every other id reads as before. *)
Theorem delete_then_get reading_id clk clk' db :
  is_Some (table db !! reading_id) →
  ∃ db',
    serve (DELETE_reading reading_id) clk db = (Returned NoContent, db') ∧
    S (size (table db')) = size (table db) ∧
    id_seq db' = id_seq db ∧
    serve (GET_reading reading_id) clk' db'
      = (Raised (HTTPException 404 "Reading not found"), db') ∧
    serve (DELETE_reading reading_id) clk' db'
      = (Raised (HTTPException 404 "Reading not found"), db') ∧
    (∀ j, j ≠ reading_id →
          (serve (GET_reading j) clk' db').1 = (serve (GET_reading j) clk' db).1).
Proof.
  intros [row Hrow]. eexists. split.
  { rewrite serve_DELETE_reading, Hrow. reflexivity. }
  cbn [table id_seq]. split.
  { rewrite <- (insert_delete_id (table db) reading_id row Hrow) at 2.
    by rewrite map_size_insert_None by apply lookup_delete_eq. }
  split; [done|].
  rewrite serve_GET_reading, serve_DELETE_reading. cbn [table].
  rewrite lookup_delete_eq. split; [done|]. split; [done|].
  intros j Hj. rewrite !serve_GET_reading. cbn [table].
  rewrite lookup_delete_ne by done. by destruct (table db !! j).
Qed.

Lemma delete_then_get_witness :
  ∃ db',
    serve (DELETE_reading 1) 700
      (store_after (POST_readings sample_body) 500 empty_db)
      = (Returned NoContent, db') ∧
    serve (GET_reading 1) 800 db'
      = (Raised (HTTPException 404 "Reading not found"), db').
Proof.
  destruct (delete_then_get 1 700 800
              (store_after (POST_readings sample_body) 500 empty_db))
    as (db' & Hdel & _ & _ & Hget & _).
  - eexists. reflexivity.
  - exists db'. by split.
Defined.

(** ** Histories of requests *)

Lemma run_history_snoc history req clk db :
  run_history (history ++ [(req, clk)]) db
  = store_after req clk (run_history history db).
Proof. unfold run_history. by rewrite foldl_app. Qed.

Lemma sequence_ahead_run_history history db :
  sequence_ahead db → sequence_ahead (run_history history db).
Proof.
  revert db. induction history as [|[req clk] history IH]; intros db H; [done|].
  cbn. apply IH. by apply sequence_ahead_serve.
Qed.

Lemma id_seq_store_after req clk db :
  id_seq db ≤ id_seq (store_after req clk db) ≤ id_seq db + 1.
Proof.
  unfold store_after. destruct req as [skip limit|body|k|k|].
  - rewrite serve_GET_readings.
    destruct (Query "skip" 0 0 None skip) as [s|]; [|cbn; lia].
    destruct (Query "limit" 100 1 (Some 100) limit) as [n|]; [|cbn; lia].
    destruct (row_count s && row_count n); cbn; lia.
  - rewrite serve_POST. destruct (schemas.errors body); [|cbn; lia].
    cbn zeta. case_bool_decide; [|cbn; lia].
    destruct (table db !! (id_seq db + 1)); cbn; lia.
  - rewrite serve_GET_reading. destruct (table db !! k); cbn; lia.
  - rewrite serve_DELETE_reading. destruct (table db !! k); cbn; lia.
  - rewrite serve_DELETE_readings. cbn. lia.
Qed.

Lemma id_seq_run_history history db :
  id_seq db ≤ id_seq (run_history history db)
            ≤ id_seq db + Z.of_nat (length history).
Proof.
  revert db. induction history as [|[req clk] history IH]; intros db.
  { cbn. lia. }
  cbn [run_history foldl fst snd length].
  pose proof (id_seq_store_after req clk db).
  specialize (IH (store_after req clk db)). unfold run_history in IH. lia.
Qed.

(** X8: starting from the empty store, after a history of fewer than
    2^31 - 1 requests (so that the id sequence is not used up) a create
    with a body within bounds answers with a reading: it is never refused
    for a duplicate key.  The id it gets is above every id in the store,
    and its row is added under that id. *)
Theorem create_succeeds_after_any_history history body clk :
  in_bounds body →
  Z.of_nat (length history) < INT4_MAX →
  ∃ r,
    serve (POST_readings body) clk (run_history history empty_db)
    = (Returned (Reading r),
       {| table := <[models.id r := row_of clk body]>
                     (table (run_history history empty_db));
          id_seq := models.id r |}) ∧
    (∀ k, is_Some (table (run_history history empty_db) !! k) →
          k < models.id r).
Proof.
  intros Hb Hlen. apply errors_nil_iff in Hb.
  pose proof (sequence_ahead_run_history history empty_db
                sequence_ahead_empty) as Hahead.
  pose proof (id_seq_run_history history empty_db) as Hseq.
  cbn [id_seq empty_db] in Hseq.
  destruct (sequence_ahead_next_id_free _ Hahead) as [Hmax Hfree]; [lia|].
  exists (load (id_seq (run_history history empty_db) + 1) (row_of clk body)).
  split.
  - rewrite serve_POST, Hb. cbn zeta.
    rewrite bool_decide_eq_true_2, Hfree by done. reflexivity.
  - intros k Hk. cbn [load models.id]. specialize (Hahead k Hk). lia.
Qed.

Lemma create_succeeds_after_any_history_witness :
  ∃ r,
    serve (POST_readings sample_body) 900
      (run_history [(POST_readings sample_body, 500); (DELETE_readings, 600)]
         empty_db)
    = (Returned (Reading r),
       {| table := <[models.id r := row_of 900 sample_body]>
                     (table (run_history
                        [(POST_readings sample_body, 500);
                         (DELETE_readings, 600)] empty_db));
          id_seq := models.id r |}) ∧
    (∀ k, is_Some (table (run_history
                     [(POST_readings sample_body, 500);
                      (DELETE_readings, 600)] empty_db) !! k) →
          k < models.id r).
Proof.
  apply (create_succeeds_after_any_history
           [(POST_readings sample_body, 500); (DELETE_readings, 600)]
           sample_body 900).
  - unfold in_bounds. cbn. lia.
  - unfold INT4_MAX. cbn. lia.
Defined.

(** X9: ids are not given twice: the id a create answers with is above
    the id any earlier create answered with, whatever requests (deletes
    included) were served in between. *)
Theorem ids_never_reused body1 clk1 history body2 clk2 db r1 db1 r2 db2 :
  serve (POST_readings body1) clk1 db = (Returned (Reading r1), db1) →
  serve (POST_readings body2) clk2 (run_history history db1)
    = (Returned (Reading r2), db2) →
  models.id r1 < models.id r2.
Proof.
  rewrite !serve_POST.
  destruct (schemas.errors body1); [|done].
  destruct (schemas.errors body2); [|done]. cbn zeta.
  case_bool_decide; [|done].
  destruct (table db !! (id_seq db + 1)); [done|].
  intros [= <- <-].
  pose proof (id_seq_run_history history
                {| table := <[id_seq db + 1 := row_of clk1 body1]> (table db);
                   id_seq := id_seq db + 1 |}) as Hmono.
  case_bool_decide; [|done].
  destruct (table _ !! _); [done|].
  intros [= <- <-]. cbn [load models.id id_seq] in *. lia.
Qed.

Lemma ids_never_reused_witness :
  models.id (load 1 (row_of 500 sample_body))
  < models.id (load 2 (row_of 900 sample_body)).
Proof.
  apply (ids_never_reused sample_body 500 [(DELETE_reading 1, 600)]
           sample_body 900 empty_db
           (load 1 (row_of 500 sample_body))
           (store_after (POST_readings sample_body) 500 empty_db)
           (load 2 (row_of 900 sample_body))
           (store_after (POST_readings sample_body) 900
              (run_history [(DELETE_reading 1, 600)]
                 (store_after (POST_readings sample_body) 500 empty_db))));
    reflexivity.
Defined.

(** X10: a request that raises changes no row.  What it raises is the
    not-found error (404), a validation error (422), or an error of the
    store (500): for a create the duplicate key or the used-up id
    sequence, for a list the skip that is no [bigint].  Only the
    duplicate key leaves a trace, in the id sequence; after every other
    error the store is exactly as before. *)
Theorem failed_request_changes_no_row req clk db e db' :
  serve req clk db = (Raised e, db') →
  table db' = table db ∧
  ((∀ msg, e ≠ IntegrityError msg) → db' = db) ∧
  (status_of e = 404 ∨ status_of e = 422 ∨
   (∃ body msg, req = POST_readings body ∧
                (e = IntegrityError msg ∨ e = DataError msg)) ∨
   (∃ skip limit msg, req = GET_readings (Some skip) limit ∧
                      INT8_MAX < skip ∧ e = DataError msg)).
Proof.
  destruct req as [skip limit|body|k|k|].
  - rewrite serve_GET_readings.
    pose proof (Query_skip_spec skip) as Qs.
    pose proof (Query_limit_spec limit) as Ql.
    destruct (Query "skip" 0 0 None skip) as [s|e1].
    + destruct (Query "limit" 100 1 (Some 100) limit) as [n|e2].
      * destruct (row_count s && row_count n) eqn:Hrc; [done|].
        intros [= <- <-]. split; [done|]. split; [done|].
        do 3 right. destruct Qs as [Hs ->], Ql as [Hl ->].
        assert (Hn : row_count (default 100 limit) = true).
        { apply row_count_true; unfold INT8_MAX;
            destruct limit; cbn in *; lia. }
        rewrite Hn, andb_true_r in Hrc.
        destruct skip as [skip|]; [|done]. cbn [default] in Hrc.
        exists skip, limit, "bigint out of range". split; [done|].
        split; [|done]. cbn in Hs.
        destruct (decide (skip ≤ INT8_MAX)); [|lia].
        by rewrite row_count_true in Hrc.
      * destruct Ql as [_ ->]. intros [= <- <-]. cbn. auto.
    + destruct Qs as [_ ->]. intros [= <- <-]. cbn. auto.
  - rewrite serve_POST. destruct (schemas.errors body) as [|f fs].
    + cbn zeta. case_bool_decide.
      * destruct (table db !! (id_seq db + 1)); [|done].
        intros [= <- <-]. cbn. split; [done|].
        split; [by intros H'; destruct (H' _ eq_refl)|].
        right. right. left. eexists _, _. split; [done|]. by left.
      * intros [= <- <-]. split; [done|]. split; [done|].
        right. right. left. eexists _, _. split; [done|]. by right.
    + intros [= <- <-]. cbn. auto.
  - rewrite serve_GET_reading. destruct (table db !! k); [done|].
    intros [= <- <-]. cbn. auto.
  - rewrite serve_DELETE_reading. destruct (table db !! k); [done|].
    intros [= <- <-]. cbn. auto.
  - by rewrite serve_DELETE_readings.
Qed.

Lemma failed_request_changes_no_row_witness :
  serve (POST_readings sample_body) 900
    {| table := {[ 1 := row_of 500 sample_body ]}; id_seq := 0 |}
  = (Raised (IntegrityError
       "duplicate key value violates unique constraint"),
     {| table := {[ 1 := row_of 500 sample_body ]}; id_seq := 1 |}) ∧
  table {| table := {[ 1 := row_of 500 sample_body ]}; id_seq := 1 |}
  = table {| table := {[ 1 := row_of 500 sample_body ]}; id_seq := 0 |}.
Proof.
  split; [reflexivity|].
  apply (failed_request_changes_no_row (POST_readings sample_body) 900
           {| table := {[ 1 := row_of 500 sample_body ]}; id_seq := 0 |}
           (IntegrityError "duplicate key value violates unique constraint")
           {| table := {[ 1 := row_of 500 sample_body ]}; id_seq := 1 |}).
  reflexivity.
Defined.

(** X11: the bounds checked on creation hold of the whole store: when
    every stored row is within the documented domains (as in the empty
    store), so is every row after any history of requests. *)
Theorem stored_rows_stay_in_bounds history db :
  rows_in_bounds db → rows_in_bounds (run_history history db).
Proof.
  revert db. induction history as [|[req clk] history IH]; intros db H; [done|].
  cbn. apply IH. clear IH. unfold store_after.
  destruct req as [skip limit|body|k|k|].
  - rewrite serve_GET_readings.
    destruct (Query "skip" 0 0 None skip) as [s|]; [|done].
    destruct (Query "limit" 100 1 (Some 100) limit) as [n|]; [|done].
    by destruct (row_count s && row_count n).
  - rewrite serve_POST. destruct (schemas.errors body) eqn:Eb; [|done].
    apply errors_nil_iff in Eb. cbn zeta.
    case_bool_decide; [|exact H].
    destruct (table db !! (id_seq db + 1)); [exact H|].
    intros j row. cbn [snd table]. rewrite lookup_insert.
    case_decide; [|apply H]. intros [= <-]. exact Eb.
  - rewrite serve_GET_reading. by destruct (table db !! k).
  - rewrite serve_DELETE_reading. destruct (table db !! k); [|done].
    intros j row. cbn [snd table]. rewrite lookup_delete.
    case_decide; [done|apply H].
  - rewrite serve_DELETE_readings. intros j row. cbn [snd table].
    by rewrite lookup_empty.
Qed.

Lemma stored_rows_stay_in_bounds_witness :
  rows_in_bounds
    (run_history [(POST_readings sample_body, 500); (DELETE_reading 4, 600)]
       empty_db).
Proof.
  apply (stored_rows_stay_in_bounds
           [(POST_readings sample_body, 500); (DELETE_reading 4, 600)]
           empty_db).
  intros k row H. cbn [table empty_db] in H. by rewrite lookup_empty in H.
Defined.

Lemma StronglySorted_lookup_lt {A} (R : relation A) l i j a b :
  StronglySorted R l → (i < j)%nat →
  l !! i = Some a → l !! j = Some b → R a b.
Proof.
  intros Hs. revert i j.
  induction Hs as [|x l Hl IH Hx]; intros i j Hij Ha Hb; [done|].
  destruct j as [|j]; [lia|]. destruct i as [|i].
  - cbn in Ha, Hb. injection Ha as <-.
    rewrite Forall_forall in Hx. apply Hx. by eapply list_elem_of_lookup_2.
  - cbn in Ha, Hb. apply (IH i j); [lia|done..].
Qed.

Lemma elem_of_window {A} (l : list A) skip limit x :
  x ∈ take limit (drop skip l) →
  ∃ i, (skip ≤ i < skip + limit)%nat ∧ l !! i = Some x.
Proof.
  intros H. apply elem_of_take in H as (i & Hi & Hlt).
  rewrite lookup_drop in Hi. exists (skip + i)%nat. split; [lia|done].
Qed.

(** X15: pages are in order: when a second window starts at or after the
    end of a first one, no reading of the second is more recent than a
    reading of the first. *)
Theorem later_page_is_not_more_recent skip1 limit1 skip2 limit2 clk clk' db
    l1 l2 r1 r2 :
  0 ≤ skip1 → 1 ≤ limit1 ≤ 100 → 1 ≤ limit2 ≤ 100 →
  skip1 + limit1 ≤ skip2 →
  serve (GET_readings (Some skip1) (Some limit1)) clk db
    = (Returned (ReadingList l1), db) →
  serve (GET_readings (Some skip2) (Some limit2)) clk' db
    = (Returned (ReadingList l2), db) →
  r1 ∈ schemas.readings l1 → r2 ∈ schemas.readings l2 →
  models.timestamp r2 ≤ models.timestamp r1.
Proof.
  intros Hs1 Hl1 Hl2 Hnext.
  destruct (decide (skip2 ≤ INT8_MAX)) as [Hmax|Hmax]; last first.
  { intros _.
    rewrite serve_GET_readings_overflow by (unfold valid_window; cbn; lia).
    done. }
  rewrite !serve_GET_readings_valid
    by (unfold valid_window, offset_in_range; cbn; lia).
  cbn [default]. intros [= <-] [= <-]. cbn [schemas.readings].
  intros H1 H2.
  apply elem_of_window in H1 as (i & Hi & Hri).
  apply elem_of_window in H2 as (j & Hj & Hrj).
  apply timestamp_desc_le.
  eapply (StronglySorted_lookup_lt timestamp_desc _ i j);
    [apply StronglySorted_merge_sort; apply _| lia | done..].
Qed.

Lemma later_page_is_not_more_recent_witness :
  models.timestamp (load 1 (row_of 500 sample_body))
  ≤ models.timestamp (load 2 (row_of 600 sample_body)).
Proof.
  apply (later_page_is_not_more_recent 0 1 1 1 2000 3000
           (store_after (POST_readings sample_body) 600
              (store_after (POST_readings sample_body) 500 empty_db))
           {| schemas.readings := [load 2 (row_of 600 sample_body)] |}
           {| schemas.readings := [load 1 (row_of 500 sample_body)] |}
           (load 2 (row_of 600 sample_body))
           (load 1 (row_of 500 sample_body)));
    try lia; try reflexivity; cbn [schemas.readings]; left.
Defined.

(** ** More on the migration script *)

Lemma foldr_max_spec k0 ks :
  foldr Z.max k0 ks ∈ k0 :: ks ∧ ∀ x, x ∈ k0 :: ks → x ≤ foldr Z.max k0 ks.
Proof.
  induction ks as [|k ks [IHin IHle]]; cbn [foldr].
  - split; [left|]. intros x Hx. apply list_elem_of_singleton in Hx. lia.
  - split.
    + destruct (Z.max_spec k (foldr Z.max k0 ks)) as [[_ ->]|[_ ->]].
      * apply elem_of_cons in IHin as [E|IHin]; [rewrite E; left|].
        by do 2 right.
      * right. left.
    + intros x Hx. apply elem_of_cons in Hx as [->|Hx].
      * specialize (IHle k0 ltac:(left)). lia.
      * apply elem_of_cons in Hx as [->|Hx]; [lia|].
        specialize (IHle x ltac:(by right)). lia.
Qed.

Lemma elem_of_keys (t : gmap Z Row) k :
  k ∈ (map_to_list t).*1 ↔ is_Some (t !! k).
Proof.
  rewrite list_elem_of_fmap. split.
  - intros [[j row] [-> H]]. apply elem_of_map_to_list in H. by eexists.
  - intros [row H]. exists (k, row). split; [done|].
    by apply elem_of_map_to_list.
Qed.

(** [SELECT MAX(id)]: no value on the empty table, else the largest id
    present. *)
Lemma max_id_spec (t : gmap Z Row) :
  match max_id t with
  | None => t = ∅
  | Some m => is_Some (t !! m) ∧ ∀ k, is_Some (t !! k) → k ≤ m
  end.
Proof.
  unfold max_id. destruct ((map_to_list t).*1) as [|k0 ks] eqn:E.
  - apply fmap_nil_inv in E. by apply map_to_list_empty_iff.
  - destruct (foldr_max_spec k0 ks) as [Hin Hle]. rewrite <- E in Hin, Hle.
    split; [by apply elem_of_keys|].
    intros k Hk. by apply Hle, elem_of_keys.
Qed.

(** X12: with the source table present but empty and a target whose
    largest id [m] is from 1 to 2^31 - 2, what the script does depends on
    whether the session takes the plain string it is given as SQL.  Where
    it does (SQLAlchemy before 2.0), the script reports success for 0
    readings, leaves the rows of the target and sets the id sequence to
    [m]; the sequence is then ahead of the table and a create with a body
    within bounds answers with a reading of id [m + 1].  Where it does
    not (SQLAlchemy 2), the script reports the [ArgumentError] and leaves
    the target, id sequence included, as it was. *)
Theorem migrate_empty_source_sequence parse_iso (textual : bool) w sqlite m
    body clk :
  files w !! SQLITE_DB_PATH = Some sqlite →
  sqlite !! models.__tablename__ = Some [] →
  max_id (table (postgres w)) = Some m →
  1 ≤ m < INT4_MAX →
  in_bounds body →
  if textual then
    migrate_data parse_iso textual w
      = after_run w {| table := table (postgres w); id_seq := m |}
          [Found 0; Migrated 0] ∧
    sequence_ahead (postgres (migrate_data parse_iso textual w)) ∧
    ∃ r db',
      serve (POST_readings body) clk
        (postgres (migrate_data parse_iso textual w))
        = (Returned (Reading r), db') ∧
      models.id r = m + 1
  else
    ∃ msg,
      migrate_data parse_iso textual w
      = after_run w (postgres w)
          [Found 0; ErrorDuringMigration (ArgumentError msg)].
Proof.
  intros Hfile Htable Hmax Hm Hb.
  pose proof (migrate_data_run parse_iso textual w) as Hrun.
  rewrite Hfile, Htable in Hrun. destruct textual; [|exact Hrun].
  rewrite Hmax, !bool_decide_eq_true_2 in Hrun by lia. cbn [andb] in Hrun.
  pose proof (max_id_spec (table (postgres w))) as Hspec.
  rewrite Hmax in Hspec. destruct Hspec as [_ Hle].
  rewrite Hrun. cbn [postgres after_run].
  assert (Hahead : sequence_ahead
                     {| table := table (postgres w); id_seq := m |}).
  { intros k Hk. cbn [table id_seq] in *. by apply Hle. }
  split; [done|]. split; [done|].
  apply errors_nil_iff in Hb.
  destruct (sequence_ahead_next_id_free _ Hahead) as [Hlt Hfree];
    [cbn; lia|].
  cbn [table id_seq] in Hfree, Hlt.
  eexists _, _. split.
  - rewrite serve_POST, Hb. cbn zeta. cbn [table id_seq].
    rewrite bool_decide_eq_true_2, Hfree by done. reflexivity.
  - reflexivity.
Qed.

Lemma migrate_empty_source_sequence_witness :
  (migrate_data (λ _, None) true (empty_source_world 1000 stale_sequence_db)
     = after_run (empty_source_world 1000 stale_sequence_db)
         {| table := table stale_sequence_db; id_seq := 7 |}
         [Found 0; Migrated 0] ∧
   sequence_ahead
     (postgres (migrate_data (λ _, None) true
                  (empty_source_world 1000 stale_sequence_db))) ∧
   ∃ r db',
     serve (POST_readings sample_body) 2000
       (postgres (migrate_data (λ _, None) true
                    (empty_source_world 1000 stale_sequence_db)))
       = (Returned (Reading r), db') ∧
     models.id r = 7 + 1) ∧
  (∃ msg,
     migrate_data (λ _, None) false
       (empty_source_world 1000 stale_sequence_db)
     = after_run (empty_source_world 1000 stale_sequence_db)
         stale_sequence_db
         [Found 0; ErrorDuringMigration (ArgumentError msg)]).
Proof.
  assert (Hb : in_bounds sample_body) by (unfold in_bounds; cbn; lia).
  assert (Hm : 1 ≤ 7 < INT4_MAX) by (unfold INT4_MAX; lia).
  split.
  - exact (migrate_empty_source_sequence (λ _, None) true
             (empty_source_world 1000 stale_sequence_db)
             {[ models.__tablename__ := [] ]} 7 sample_body 2000
             eq_refl eq_refl eq_refl Hm Hb).
  - exact (migrate_empty_source_sequence (λ _, None) false
             (empty_source_world 1000 stale_sequence_db)
             {[ models.__tablename__ := [] ]} 7 sample_body 2000
             eq_refl eq_refl eq_refl Hm Hb).
Defined.

(** X13: the script copies nothing, whatever the source: the rows of the
    target after a run are the rows before it; and as soon as the source
    table has a row, the run ends in a reported error, after the line
    that counts the source rows, with the target store untouched. *)
Theorem migrate_data_copies_no_row parse_iso textual w :
  table (postgres (migrate_data parse_iso textual w)) = table (postgres w) ∧
  (∀ sqlite reading rest,
     files w !! SQLITE_DB_PATH = Some sqlite →
     sqlite !! models.__tablename__ = Some (reading :: rest) →
     ∃ e, migrate_data parse_iso textual w
          = after_run w (postgres w)
              [Found (S (length rest)); ErrorDuringMigration e]).
Proof.
  split; [apply migrate_data_table|].
  intros sqlite reading rest Hfile Htable.
  pose proof (migrate_data_run parse_iso textual w) as Hrun.
  by rewrite Hfile, Htable in Hrun.
Qed.

Lemma migrate_data_copies_no_row_witness :
  ∃ e, migrate_data (λ _, Some 0) false (five_rows_world 1000)
       = after_run (five_rows_world 1000) empty_db
           [Found 5; ErrorDuringMigration e].
Proof.
  apply (proj2 (migrate_data_copies_no_row (λ _, Some 0) false
                  (five_rows_world 1000))
           {[ models.__tablename__ := five_rows ]}
           (sqlite_row 1 120 80 60 "2024-01-01 08:00:00" PyNone)
           (tail five_rows));
    reflexivity.
Defined.

(** X14: without the SQLite file the script prints the not-found line
    and nothing else happens; with the file but without the readings
    table it reports the error of the failed [SELECT]; in both cases the
    target store is untouched. *)
Theorem migrate_without_source parse_iso textual w :
  (files w !! SQLITE_DB_PATH = None →
   migrate_data parse_iso textual w
   = after_run w (postgres w) [SqliteNotFound]) ∧
  (∀ sqlite,
     files w !! SQLITE_DB_PATH = Some sqlite →
     sqlite !! models.__tablename__ = None →
     migrate_data parse_iso textual w
     = after_run w (postgres w)
         [ErrorDuringMigration
            (OperationalError "no such table: blood_pressure_readings")]).
Proof.
  split.
  - intros Hfile. pose proof (migrate_data_run parse_iso textual w) as Hrun.
    by rewrite Hfile in Hrun.
  - intros sqlite Hfile Htable.
    unfold migrate_data, after_run. rewrite Hfile.
    unfold try_except, migrate_try, migrate_except, select_all.
    rewrite Htable.
    unfold raise, on_db, zoom, rollback, print, bind, modify. cbn.
    by destruct (postgres w).
Qed.

Lemma migrate_without_source_witness :
  migrate_data (λ _, None) false
    {| files := ∅; postgres := stale_sequence_db; stdout := [];
       migrate.clock := 1000 |}
  = after_run
      {| files := ∅; postgres := stale_sequence_db; stdout := [];
         migrate.clock := 1000 |}
      stale_sequence_db [SqliteNotFound].
Proof.
  apply (proj1 (migrate_without_source (λ _, None) false
    {| files := ∅; postgres := stale_sequence_db; stdout := [];
       migrate.clock := 1000 |})).
  reflexivity.
Defined.

Lemma last_two {A} (l : list A) a b : last (l ++ [a; b]) = Some b.
Proof.
  change (l ++ [a; b]) with (l ++ [a] ++ [b]).
  by rewrite (assoc_L (++)), last_snoc.
Qed.

(** X16: a run that ends with the error line has changed nothing in the
    target: its rows and its id sequence are as before the run, whatever
    the source holds and whether or not the session takes a plain string
    as SQL. *)
Theorem migrate_error_leaves_target parse_iso (textual : bool) w :
  reported_error (migrate_data parse_iso textual w) →
  postgres (migrate_data parse_iso textual w) = postgres w.
Proof.
  pose proof (migrate_data_run parse_iso textual w) as H.
  unfold reported_error.
  destruct (files w !! SQLITE_DB_PATH) as [sqlite|]; [|by rewrite H].
  destruct (sqlite !! models.__tablename__) as [[|reading rest]|].
  - destruct textual; [|by destruct H as [e ->]].
    destruct (max_id (table (postgres w))) as [m|]; [|by rewrite H].
    destruct (bool_decide (1 ≤ m) && bool_decide (m ≤ INT4_MAX));
      [|by destruct H as [e ->]].
    rewrite H. cbn [stdout after_run]. rewrite last_two. by intros [e ?].
  - by destruct H as [e ->].
  - by destruct H as [e ->].
Qed.

Lemma migrate_error_leaves_target_witness :
  reported_error
    (migrate_data (λ _, None) false
       (empty_source_world 1000 stale_sequence_db)) ∧
  postgres (migrate_data (λ _, None) false
              (empty_source_world 1000 stale_sequence_db))
  = stale_sequence_db.
Proof.
  assert (H : reported_error
                (migrate_data (λ _, None) false
                   (empty_source_world 1000 stale_sequence_db))).
  { eexists. vm_compute. reflexivity. }
  split; [exact H|].
  exact (migrate_error_leaves_target (λ _, None) false
           (empty_source_world 1000 stale_sequence_db) H).
Defined.
